(** * locate-data-objects and friends: a shallow embedding

    The command line tools of npg-irods-python walk over records of the ML
    warehouse, ask the iRODS store about each one and print the paths found,
    counting the items processed and the items that failed.  This file embeds
    the three sub-commands of [locate_data_objects.py] ([consent_withdrawn],
    [illumina_updates], [ont_updates]) and the [main] functions of
    [update_secondary_metadata.py] and [apply_ont_metadata.py].

    Conventions of the embedding:
    - Python [int]s are [Z]; [None]-able values are [option].
    - A [defaultdict(int)] is a [gmap Z Z]; reading a missing key stores the
      default, as Python does.
    - The store is an oracle indexed by the position of the item in the scan
      (the [i] of [enumerate]), so that it may answer differently over time;
      a call either returns a value or raises.
    - Everything the program does that can be seen from outside (log calls,
      store calls, lines printed) is recorded, in order, as a list of events. *)

From Stdlib Require Import ZArith List String Lia Bool.
From stdpp Require Import base option list gmap strings.
Import ListNotations.
Local Open Scope string_scope.
Local Open Scope list_scope.
Local Open Scope Z_scope.

(** ** Python values *)

Module Py.

(** The result of a call that may raise. *)
Inductive outcome (A : Type) : Type :=
| Returned (a : A)
| Raised (e : string).
Arguments Returned {A} a.
Arguments Raised {A} e.

(** Truth value of an [int] or of an optional [int]. *)
Definition truthy (n : Z) : bool := negb (n =? 0).

Definition truthy_opt (o : option Z) : bool :=
  match o with
  | Some n => truthy n
  | None => false
  end.

(** [a == b] where [b] may be [None]. *)
Definition eq_opt (a : Z) (b : option Z) : bool :=
  match b with
  | Some n => a =? n
  | None => false
  end.

(** [d[k]] on a [defaultdict(int)]: a missing key is stored with 0. *)
Definition dd_get (d : gmap Z Z) (k : Z) : Z * gmap Z Z :=
  match d !! k with
  | Some v => (v, d)
  | None => (0, <[k := 0]> d)
  end.

(** [d[k] += 1]: a read followed by a store. *)
Definition dd_incr (d : gmap Z Z) (k : Z) : gmap Z Z :=
  let '(v, d') := dd_get d k in <[k := v + 1]> d'.

(** What a read of [d[k]] would give, without the store of the default. *)
Definition count (d : gmap Z Z) (k : Z) : Z := default 0 (d !! k).

(** [for i, c in enumerate(cs): body], from index [i] on: the loop's
    variables are threaded through and the events of the turns follow one
    another. *)
Fixpoint for_enumerate {St C E : Type}
  (body : nat -> C -> St -> St * list E) (i : nat) (cs : list C) (st : St)
  : St * list E :=
  match cs with
  | [] => (st, [])
  | c :: cs' =>
      let '(st1, e1) := body i c st in
      let '(st2, e2) := for_enumerate body (S i) cs' st1 in
      (st2, e1 ++ e2)
  end.

(** The exit status of a process that ends by [exit(1)] when [num_errors]
    is true and by falling off the end of [main] otherwise. *)
Definition exit_if (num_errors : Z) : Z := if truthy num_errors then 1 else 0.

End Py.
Export Py.

(** ** The store and what the program lets the world see *)

Module Store.

(** [rods_type] of an item: the class it belongs to. *)
Inductive RodsType : Type := DataObject | Collection.

(** An item of the store: a data object, or a collection with its direct
    contents. *)
#[local] Set Warnings "-register-all".
Inductive RodsItem : Type :=
| Obj (path : string)
| Coll (path : string) (contents : list RodsItem).

Definition rods_type (x : RodsItem) : RodsType :=
  match x with
  | Obj _ => DataObject
  | Coll _ _ => Collection
  end.

Definition path (x : RodsItem) : string :=
  match x with
  | Obj p => p
  | Coll p _ => p
  end.

Definition is_data_object (x : RodsItem) : bool :=
  match rods_type x with
  | DataObject => true
  | Collection => false
  end.

(** [coll.iter_contents(recurse=...)]: the items below a collection, the
    collection itself left out; with [recurse] the contents of every
    sub-collection follow it. *)
Fixpoint iter_contents (recurse : bool) (x : RodsItem) : list RodsItem :=
  match x with
  | Obj _ => []
  | Coll _ items =>
      (fix each (l : list RodsItem) : list RodsItem :=
         match l with
         | [] => []
         | y :: l' =>
             y :: (if recurse then iter_contents recurse y else []) ++ each l'
         end) items
  end.

Inductive Level : Type := Info | Error | Exception.

(** Observable events. [C] is the type of the scanned item (a component or
    a sample), [Q] the type of a request to the store. *)
Inductive Event (C Q : Type) : Type :=
| Log (level : Level) (msg : string) (item : nat) (comp : C)
| Summary (num_processed num_errors : Z)
| Call (item : nat) (q : Q)
| Print (x : RodsItem).
Arguments Log {C Q} level msg item comp.
Arguments Summary {C Q} num_processed num_errors.
Arguments Call {C Q} item q.
Arguments Print {C Q} x.

(** What a sub-command leaves behind: its exit status and its events. *)
Record Run (C Q : Type) : Type := mkRun {
  exit_code : Z;
  processed : Z;
  errors : Z;
  events : list (Event C Q)
}.
Arguments mkRun {C Q} exit_code processed errors events.
Arguments exit_code {C Q} r.
Arguments processed {C Q} r.
Arguments errors {C Q} r.
Arguments events {C Q} r.

(** How many events of a trace satisfy [p]. *)
Fixpoint how_many {E : Type} (p : E -> bool) (ev : list E) : Z :=
  match ev with
  | [] => 0
  | e :: ev' => (if p e then 1 else 0) + how_many p ev'
  end.

(** The items printed, in the order of printing. *)
Definition printed {C Q : Type} (ev : list (Event C Q)) : list RodsItem :=
  flat_map (fun e => match e with Print x => [x] | _ => [] end) ev.

End Store.
Export Store.

(** ** illumina-updates *)

Module Illumina.

(** A component of an Illumina run, as the warehouse scan yields it. *)
Record Component : Type := mkComponent {
  id_run : Z;
  position : Z;
  tag_index : option Z
}.

(** The loop's variables. *)
Record State : Type := mkState {
  num_processed : Z;
  num_errors : Z;
  attempts_per_run : gmap Z Z;
  success_per_run : gmap Z Z
}.

Definition initial : State := mkState 0 0 ∅ ∅.

Definition Ev : Type := Event Component Component.

Definition skip_msg : string :=
  "Skipping run after unsuccessful attempts to find it".

Section Workflow.

(** [query_metadata] with [collection=False]: the three AVUs of the request
    are built from the component, so the store's answer at item [i] is a
    function of the component. *)
Variable query_metadata : nat -> Component -> outcome (list RodsItem).

(** [cli_args.skip_absent_runs]. *)
Variable skip_absent_runs : option Z.

(** The condition of the [if] that guards the lookup, evaluated left to
    right with the short cuts of [and]; each read of a counter may store
    its default. *)
Definition skip_test (st : State) (r : Z) : bool * State :=
  if truthy_opt skip_absent_runs then
    let '(s, succ) := dd_get (success_per_run st) r in
    let st1 := mkState (num_processed st) (num_errors st)
                       (attempts_per_run st) succ in
    if s =? 0 then
      let '(a, att) := dd_get (attempts_per_run st1) r in
      (eq_opt a skip_absent_runs,
       mkState (num_processed st1) (num_errors st1) att
               (success_per_run st1))
    else (false, st1)
  else (false, st).

(** The run is in the skipped state when the guard holds. *)
Definition skipped (st : State) (r : Z) : bool := fst (skip_test st r).

(** One turn of the [for] loop. Building the three AVUs from the component
    is taken not to raise, so that inside the [try] only the call to the
    store can. *)
Definition body (i : nat) (c : Component) (st : State) : State * list Ev :=
  let st0 := mkState (num_processed st + 1) (num_errors st)
                     (attempts_per_run st) (success_per_run st) in
  let found := Log Info "Finding data objects" i c in
  let '(skip, st1) := skip_test st0 (id_run c) in
  if skip then
    (st1, [found; Log Info skip_msg i c])
  else
    match query_metadata i c with
    | Raised e =>
        (mkState (num_processed st1) (num_errors st1 + 1)
                 (attempts_per_run st1) (success_per_run st1),
         [found; Call i c; Log Exception e i c])
    | Returned [] =>
        (mkState (num_processed st1) (num_errors st1)
                 (dd_incr (attempts_per_run st1) (id_run c))
                 (success_per_run st1),
         [found; Call i c])
    | Returned result =>
        (mkState (num_processed st1) (num_errors st1)
                 (attempts_per_run st1)
                 (dd_incr (success_per_run st1) (id_run c)),
         found :: Call i c :: map Print result)
    end.

(** The [for] loop over [enumerate(find_updated_components(...))], from
    item [i] on. *)
Definition loop (i : nat) (cs : list Component) (st : State)
  : State * list Ev :=
  for_enumerate body i cs st.

(** The sub-command, given the components the scan yields. *)
Definition illumina_updates (cs : list Component) : Run Component Component :=
  let '(st, ev) := loop 0 cs initial in
  mkRun (exit_if (num_errors st)) (num_processed st) (num_errors st)
        (ev ++ [Summary (num_processed st) (num_errors st)]).

End Workflow.

(** How many events of a trace satisfy [p]. *)
Fixpoint tally (p : Ev -> bool) (ev : list Ev) : Z :=
  match ev with
  | [] => 0
  | e :: ev' => (if p e then 1 else 0) + tally p ev'
  end.

(** A call to the store for a component of run [r]. *)
Definition is_call_for (r : Z) (e : Ev) : bool :=
  match e with
  | Call _ c => bool_decide (id_run c = r)
  | _ => false
  end.

(** The number of store calls made for run [r]. *)
Definition calls_for (r : Z) (ev : list Ev) : Z := tally (is_call_for r) ev.

(** The log line of a skipped component of run [r]. *)
Definition is_skip_for (r : Z) (e : Ev) : bool :=
  match e with
  | Log Info msg _ c =>
      bool_decide (msg = skip_msg) && bool_decide (id_run c = r)
  | _ => false
  end.

Definition is_empty (o : outcome (list RodsItem)) : bool :=
  match o with
  | Returned [] => true
  | _ => false
  end.

Definition is_hit (o : outcome (list RodsItem)) : bool :=
  match o with
  | Returned (_ :: _) => true
  | _ => false
  end.

Definition is_raise (o : outcome (list RodsItem)) : bool :=
  match o with
  | Raised _ => true
  | Returned _ => false
  end.

(** A call to the store whose answer satisfies [p]. *)
Definition is_call_with
  (query_metadata : nat -> Component -> outcome (list RodsItem))
  (p : outcome (list RodsItem) -> bool) (e : Ev) : bool :=
  match e with
  | Call j c => p (query_metadata j c)
  | _ => false
  end.

(** The two counters of a run, as a read would see them. *)
Definition att (st : State) (k : Z) : Z := count (attempts_per_run st) k.
Definition suc (st : State) (k : Z) : Z := count (success_per_run st) k.

(** What one turn does, by the branch taken: the totals, the counters of
    every run [k], and the events. *)
Inductive turn
  (query_metadata : nat -> Component -> outcome (list RodsItem))
  (skip_absent_runs : option Z)
  (i : nat) (c : Component) (st st' : State)
  : list Ev -> Prop :=
| turn_skip :
    skipped skip_absent_runs st (id_run c) = true ->
    num_errors st' = num_errors st ->
    (forall k, att st' k = att st k) ->
    (forall k, suc st' k = suc st k) ->
    turn query_metadata skip_absent_runs i c st st'
      [Log Info "Finding data objects" i c; Log Info skip_msg i c]
| turn_raise e :
    skipped skip_absent_runs st (id_run c) = false ->
    query_metadata i c = Raised e ->
    num_errors st' = num_errors st + 1 ->
    (forall k, att st' k = att st k) ->
    (forall k, suc st' k = suc st k) ->
    turn query_metadata skip_absent_runs i c st st'
      [Log Info "Finding data objects" i c; Call i c; Log Exception e i c]
| turn_empty :
    skipped skip_absent_runs st (id_run c) = false ->
    query_metadata i c = Returned [] ->
    num_errors st' = num_errors st ->
    (forall k, att st' k =
               att st k + (if decide (k = id_run c) then 1 else 0)) ->
    (forall k, suc st' k = suc st k) ->
    turn query_metadata skip_absent_runs i c st st'
      [Log Info "Finding data objects" i c; Call i c]
| turn_hit x result :
    skipped skip_absent_runs st (id_run c) = false ->
    query_metadata i c = Returned (x :: result) ->
    num_errors st' = num_errors st ->
    (forall k, att st' k = att st k) ->
    (forall k, suc st' k =
               suc st k + (if decide (k = id_run c) then 1 else 0)) ->
    turn query_metadata skip_absent_runs i c st st'
      (Log Info "Finding data objects" i c :: Call i c
         :: map Print (x :: result)).

(** A call to the store, for whatever run. *)
Definition is_call (e : Ev) : bool :=
  match e with
  | Call _ _ => true
  | _ => false
  end.

(** The log line of a skipped component, of whatever run. *)
Definition is_skip (e : Ev) : bool :=
  match e with
  | Log Info msg _ _ => bool_decide (msg = skip_msg)
  | _ => false
  end.

(** A call to the store for run [r] whose answer satisfies [p]. *)
Definition is_call_for_with
  (query_metadata : nat -> Component -> outcome (list RodsItem))
  (p : outcome (list RodsItem) -> bool) (r : Z) (e : Ev) : bool :=
  is_call_for r e && is_call_with query_metadata p e.

(** What the store gave back to the call recorded by an event. *)
Definition answer
  (query_metadata : nat -> Component -> outcome (list RodsItem))
  (e : Ev) : list RodsItem :=
  match e with
  | Call j c =>
      match query_metadata j c with
      | Returned l => l
      | Raised _ => []
      end
  | _ => []
  end.


(** Sample scans and stores, for running the workflow. *)
Module Samples.

Definition c7 : Component := mkComponent 7 1 (Some 1).
Definition c8 : Component := mkComponent 8 2 (Some 3).

Definition scan5 : list Component := [c7; c7; c8; c7; c7].

Definition cram : RodsItem := Obj "/seq/illumina/runs/7/7_1#1.cram".

(** A store that has nothing. *)
Definition never (j : nat) (c : Component) : outcome (list RodsItem) :=
  Returned [].

(** A store that has the object when asked at item 1, and nothing before
    or after. *)
Definition second (j : nat) (c : Component) : outcome (list RodsItem) :=
  if Nat.eqb j 1 then Returned [cram] else Returned [].

(** A store that has the object when asked at item 0, and nothing after. *)
Definition first (j : nat) (c : Component) : outcome (list RodsItem) :=
  if Nat.eqb j 0 then Returned [cram] else Returned [].

(** A store that has nothing for the first two items and the object for
    every item after them. *)
Definition late (j : nat) (c : Component) : outcome (list RodsItem) :=
  if Nat.ltb j 2 then Returned [] else Returned [cram].


(** A store that fails at item 1. *)
Definition broken (j : nat) (c : Component) : outcome (list RodsItem) :=
  if Nat.eqb j 1 then Raised "RodsError" else Returned [].

End Samples.

End Illumina.

(** ** consent-withdrawn *)

Module Consent.

(** A sample row of the warehouse; [id_sample_lims] may be NULL. *)
Record Sample : Type := mkSample {
  id_sample_tmp : Z;
  id_sample_lims : option string
}.

(** A search of the store for the AVU [(sample_id, value)]. *)
Record Request : Type := mkRequest {
  value : string;
  data_object : bool;
  collection : bool
}.

Record State : Type := mkState {
  num_processed : Z;
  num_errors : Z
}.

Definition initial : State := mkState 0 0.

Definition Ev : Type := Event Sample Request.

(** The data objects anywhere below the collections matched. *)
Definition objects_below (colls : list RodsItem) : list RodsItem :=
  flat_map (fun coll => List.filter is_data_object (iter_contents true coll))
           colls.

Section Workflow.

Variable query_metadata : nat -> Request -> outcome (list RodsItem).

(** One turn of the [for] loop. The listing of a collection is taken
    from the item itself and does not fail. *)
Definition body (i : nat) (s : Sample) (st : State) : State * list Ev :=
  let n := num_processed st + 1 in
  let found := Log Info "Finding data objects" i s in
  match id_sample_lims s with
  | None =>
      (mkState n (num_errors st + 1),
       [found; Log Error "Missing id_sample_lims" i s])
  | Some id =>
      let objs := mkRequest id true false in
      let colls := mkRequest id false true in
      match query_metadata i objs with
      | Raised e =>
          (mkState n (num_errors st + 1),
           [found; Call i objs; Log Exception e i s])
      | Returned os =>
          match query_metadata i colls with
          | Raised e =>
              (mkState n (num_errors st + 1),
               found :: Call i objs :: map Print os
                 ++ [Call i colls; Log Exception e i s])
          | Returned cs =>
              (mkState n (num_errors st),
               found :: Call i objs :: map Print os
                 ++ Call i colls :: map Print (objects_below cs))
          end
      end
  end.

Definition loop (i : nat) (ss : list Sample) (st : State)
  : State * list Ev :=
  for_enumerate body i ss st.

(** The sub-command, given the samples the warehouse yields. *)
Definition consent_withdrawn (ss : list Sample) : Run Sample Request :=
  let '(st, ev) := loop 0 ss initial in
  mkRun (exit_if (num_errors st)) (num_processed st) (num_errors st)
        (ev ++ [Summary (num_processed st) (num_errors st)]).

End Workflow.

Definition is_call (e : Ev) : bool :=
  match e with
  | Call _ _ => true
  | _ => false
  end.

(** The store keeps its word: a search with [collection=False] returns
    data objects only. *)
Definition objects_only
  (query_metadata : nat -> Request -> outcome (list RodsItem)) : Prop :=
  forall i q l,
    collection q = false -> query_metadata i q = Returned l ->
    Forall (fun x => rods_type x = DataObject) l.


(** A call to the store that raised. *)
Definition is_raising
  (query_metadata : nat -> Request -> outcome (list RodsItem))
  (e : Ev) : bool :=
  match e with
  | Call j q =>
      match query_metadata j q with
      | Raised _ => true
      | Returned _ => false
      end
  | _ => false
  end.

(** What the call recorded by an event gives to print: the objects of a
    search for objects, the objects below the collections of a search for
    collections. *)
Definition answer
  (query_metadata : nat -> Request -> outcome (list RodsItem))
  (e : Ev) : list RodsItem :=
  match e with
  | Call j q =>
      match query_metadata j q with
      | Returned l => if collection q then objects_below l else l
      | Raised _ => []
      end
  | _ => []
  end.

Module Samples.

Definition anon : Sample := mkSample 11 None.
Definition s12 : Sample := mkSample 12 (Some "SAMPLE_12").

Definition run_folder : RodsItem :=
  Coll "/seq/ont/run1"
       [Obj "/seq/ont/run1/report.md";
        Coll "/seq/ont/run1/pass" [Obj "/seq/ont/run1/pass/a.fastq"]].

(** A store with one data object and one collection for every sample. *)
Definition store (j : nat) (q : Request) : outcome (list RodsItem) :=
  if collection q then Returned [run_folder]
  else Returned [Obj "/seq/1/1.cram"].

End Samples.

End Consent.

(** ** ont-updates *)

Module Ont.

(** A component of an ONT run. *)
Record Component : Type := mkComponent {
  experiment_name : string;
  instrument_slot : Z;
  tag_identifier : option string
}.

(** A request to the store: the search for the run's collections, or the
    look for the barcode collections below one of them. *)
Inductive Request : Type :=
| FindCollections (c : Component)
| BarcodeCollections (coll : RodsItem) (tag_identifier : string).

Record State : Type := mkState {
  num_processed : Z;
  num_errors : Z
}.

Definition initial : State := mkState 0 0.

Definition Ev : Type := Event Component Request.

Section Workflow.

(** [query_metadata] with [data_object=False], for the two AVUs of the
    component. *)
Variable query_metadata : nat -> Component -> outcome (list RodsItem).

(** [barcode_collections(coll, tag_identifier)] of [npg_irods.ont]. *)
Variable barcode_collections :
  nat -> RodsItem -> string -> outcome (list RodsItem).

(** [cli_args.report_tags]. *)
Variable report_tags : bool.

(** The loop over the collections matched; it stops at the first call
    that raises, whose exception it hands back. *)
Fixpoint report (i : nat) (c : Component) (colls : list RodsItem)
  : list Ev * option string :=
  match colls with
  | [] => ([], None)
  | coll :: rest =>
      match report_tags, tag_identifier c with
      | true, Some tag =>
          match barcode_collections i coll tag with
          | Raised e => ([Call i (BarcodeCollections coll tag)], Some e)
          | Returned bcolls =>
              let '(ev, r) := report i c rest in
              (Call i (BarcodeCollections coll tag)
                 :: map Print bcolls ++ ev, r)
          end
      | _, _ =>
          let '(ev, r) := report i c rest in
          (Print coll :: ev, r)
      end
  end.

(** One turn of the [for] loop. *)
Definition body (i : nat) (c : Component) (st : State) : State * list Ev :=
  let n := num_processed st + 1 in
  let found := Log Info "Finding collections" i c in
  match query_metadata i c with
  | Raised e =>
      (mkState n (num_errors st + 1),
       [found; Call i (FindCollections c); Log Exception e i c])
  | Returned colls =>
      match report i c colls with
      | (ev, Some e) =>
          (mkState n (num_errors st + 1),
           found :: Call i (FindCollections c) :: ev
             ++ [Log Exception e i c])
      | (ev, None) =>
          (mkState n (num_errors st),
           found :: Call i (FindCollections c) :: ev)
      end
  end.

Definition loop (i : nat) (cs : list Component) (st : State)
  : State * list Ev :=
  for_enumerate body i cs st.

(** The sub-command, given the components the scan yields. *)
Definition ont_updates (cs : list Component) : Run Component Request :=
  let '(st, ev) := loop 0 cs initial in
  mkRun (exit_if (num_errors st)) (num_processed st) (num_errors st)
        (ev ++ [Summary (num_processed st) (num_errors st)]).

End Workflow.

(** A call, of either kind, that raised. *)
Definition is_raising
  (query_metadata : nat -> Component -> outcome (list RodsItem))
  (barcode_collections : nat -> RodsItem -> string -> outcome (list RodsItem))
  (e : Ev) : bool :=
  match e with
  | Call j (FindCollections c) =>
      match query_metadata j c with
      | Raised _ => true
      | Returned _ => false
      end
  | Call j (BarcodeCollections coll tag) =>
      match barcode_collections j coll tag with
      | Raised _ => true
      | Returned _ => false
      end
  | _ => false
  end.

(** Whether the collections matched for a component give way to their
    barcode collections. *)
Definition expands (report_tags : bool) (c : Component) : bool :=
  report_tags && bool_decide (is_Some (tag_identifier c)).

(** What the call recorded by an event gives to print: the collections
    matched, unless they are to be expanded, and the barcode collections
    found. *)
Definition answer
  (query_metadata : nat -> Component -> outcome (list RodsItem))
  (barcode_collections : nat -> RodsItem -> string -> outcome (list RodsItem))
  (report_tags : bool) (e : Ev) : list RodsItem :=
  match e with
  | Call j (FindCollections c) =>
      if expands report_tags c then []
      else match query_metadata j c with
           | Returned l => l
           | Raised _ => []
           end
  | Call j (BarcodeCollections coll tag) =>
      match barcode_collections j coll tag with
      | Returned l => l
      | Raised _ => []
      end
  | _ => []
  end.

Module Samples.

Definition plain : Component := mkComponent "simple_experiment_001" 1 None.
Definition tagged : Component :=
  mkComponent "multiplexed_experiment_001" 1 (Some "NB01").

Definition folder : RodsItem := Coll "/seq/ont/multiplexed_001/1" [].
Definition barcode01 : RodsItem :=
  Coll "/seq/ont/multiplexed_001/1/barcode01" [].

Definition store (j : nat) (c : Component) : outcome (list RodsItem) :=
  Returned [folder].

Definition barcodes (j : nat) (coll : RodsItem) (tag : string)
  : outcome (list RodsItem) :=
  Returned [barcode01].

Definition folder2 : RodsItem := Coll "/seq/ont/multiplexed_001/2" [].
Definition folder3 : RodsItem := Coll "/seq/ont/multiplexed_001/3" [].

(** A store that fails on the second folder. *)
Definition flaky_barcodes (j : nat) (coll : RodsItem) (tag : string)
  : outcome (list RodsItem) :=
  if String.eqb (path coll) (path folder2) then Raised "RodsError"
  else Returned [barcode01].

End Samples.

End Ont.

(** ** update-secondary-metadata and apply-ont-metadata *)

Module Cli.

(** What [main] says before it ends. *)
Inductive Said : Type :=
| Version
| LogError (msg : string) (num_processed num_updated num_errors : Z)
| LogInfo (msg : string) (num_processed num_updated num_errors : Z).

(** The end of both [main] functions, once the worker has returned its
    three counts. *)
Definition report (counts : Z * Z * Z) : Z * list Said :=
  let '(num_processed, num_updated, num_errors) := counts in
  if truthy num_errors then
    (1, [LogError "Update failed" num_processed num_updated num_errors])
  else
    let msg := if truthy num_updated then "All updates were successful"
               else "No updates were required" in
    (0, [LogInfo msg num_processed num_updated num_errors]).

(** [main] of [update_secondary_metadata.py]. *)
Module UpdateSecondaryMetadata.

(** The options that reach the worker, and the lines of the input. *)
Record Args : Type := mkArgs {
  version : bool;
  input : list string;
  print_update : bool;
  print_fail : bool
}.

Section Main.

(** [update_secondary_metadata] of [npg_irods.utilities]: it returns
    [(num_processed, num_updated, num_errors)]. *)
Variable update_secondary_metadata :
  list string -> bool -> bool -> Z * Z * Z.

Definition main (args : Args) : Z * list Said :=
  if version args then (0, [Version])
  else report (update_secondary_metadata
                 (input args) (print_update args) (print_fail args)).

End Main.

End UpdateSecondaryMetadata.

(** [main] of [apply_ont_metadata.py]. *)
Module ApplyOntMetadata.

(** The options that reach the worker. *)
Record Args : Type := mkArgs {
  version : bool;
  begin_date : Z;
  zone : option string
}.

Section Main.

(** [apply_metadata] of [npg_irods.ont]: it returns
    [(num_processed, num_updated, num_errors)]. *)
Variable apply_metadata : Z -> option string -> Z * Z * Z.

Definition main (args : Args) : Z * list Said :=
  if version args then (0, [Version])
  else report (apply_metadata (begin_date args) (zone args)).

End Main.

End ApplyOntMetadata.

End Cli.

(** ** The ML warehouse of the tests *)

Module Mlwh.

(** A row of the flowcell table, with the columns the queries read;
    [last_updated] is in seconds. *)
Record OseqFlowcell : Type := mkOseqFlowcell {
  experiment_name : string;
  instrument_slot : Z;
  tag_identifier : option string;
  last_updated : Z
}.

(** [timedelta(days=1)], in seconds. *)
Definition day : Z := 86400.

(** The three times at which the experiments of the fixture were done. *)
Inductive When : Type := Early | Late | Latest.

(** A row of the fixture before its time is filled in. *)
Record Planned : Type := mkPlanned {
  name : string;
  slot : Z;
  tag : option string;
  done : When
}.

Definition digit (d : nat) : string :=
  String (Ascii.ascii_of_nat (48 + d)) EmptyString.

(** The number [n], below 1000, on three digits, and below 100, on two. *)
Definition pad3 (n : nat) : string :=
  String.append (digit (n / 100))
                (String.append (digit (n / 10 mod 10)) (digit (n mod 10))).

Definition pad2 (n : nat) : string :=
  String.append (digit (n / 10 mod 10)) (digit (n mod 10)).

Definition expt_name (kind : string) (n : nat) : string :=
  String.append kind (String.append "_experiment_" (pad3 n)).

(** [ont_tag_identifier(n)]: NB01, NB02, ... *)
Definition ont_tag_identifier (n : nat) : string :=
  String.append "NB" (pad2 n).

(** Modelled from the spec: the plan of the synthetic ONT warehouse, whose
    set-up in [conftest.py] is not among the sources. Simple experiments
    1 to 5 and multiplexed experiments 1 to 3 each sit on instrument
    positions 1 to 5, a multiplexed one with tags 1 to 12 at each; the
    even-numbered experiments were done early, the odd-numbered ones late,
    or latest for a multiplexed experiment at an odd position. *)
Definition simple_plan : list Planned :=
  flat_map (fun n =>
    map (fun pos =>
           mkPlanned (expt_name "simple" n) (Z.of_nat pos) None
                     (if Nat.even n then Early else Late))
        (seq 1 5))
    (seq 1 5).

Definition multiplexed_plan : list Planned :=
  flat_map (fun n =>
    flat_map (fun pos =>
      map (fun t =>
             mkPlanned (expt_name "multiplexed" n) (Z.of_nat pos)
                       (Some (ont_tag_identifier t))
                       (if Nat.even n then Early
                        else if Nat.even pos then Late else Latest))
          (seq 1 12))
      (seq 1 5))
    (seq 1 3).

Definition plan : list Planned := simple_plan ++ multiplexed_plan.

Section Fixture.

(** The constants [EARLY], [LATE] and [LATEST] of [conftest.py]. *)
Variables EARLY LATE LATEST : Z.

Definition time_of (w : When) : Z :=
  match w with
  | Early => EARLY
  | Late => LATE
  | Latest => LATEST
  end.

Definition row_of (p : Planned) : OseqFlowcell :=
  mkOseqFlowcell (name p) (slot p) (tag p) (time_of (done p)).

(** Modelled from the spec: the rows of the fixture [ont_synthetic_mlwh],
    in the order of their insertion. *)
Definition ont_synthetic_mlwh : list OseqFlowcell := map row_of plan.

End Fixture.

(** [DISTINCT], keeping the first of equal names. *)
Fixpoint distinct_from (seen l : list string) : list string :=
  match l with
  | [] => []
  | x :: l' =>
      if existsb (String.eqb x) seen then distinct_from seen l'
      else x :: distinct_from (x :: seen) l'
  end.

Definition distinct (l : list string) : list string := distinct_from [] l.

(** Modelled from the spec: [find_recent_expt] of [npg_irods.ont], which is
    not among the sources: the distinct names of the experiments with a
    row updated at [since] or later. *)
Definition find_recent_expt (mlwh : list OseqFlowcell) (since : Z)
  : list string :=
  distinct (map experiment_name
                (List.filter (fun r => since <=? last_updated r) mlwh)).

End Mlwh.

(** ** Facts about the Python values *)

Module PyFacts.

Lemma dd_get_fst (d : gmap Z Z) (k : Z) : fst (dd_get d k) = count d k.
Proof. unfold dd_get, count. destruct (d !! k); reflexivity. Qed.

Lemma count_dd_get (d : gmap Z Z) (k k' : Z) :
  count (snd (dd_get d k)) k' = count d k'.
Proof.
  unfold dd_get, count. destruct (d !! k) eqn:E; simpl; [reflexivity|].
  destruct (decide (k = k')) as [->|Hne].
  - rewrite lookup_insert_eq, E. reflexivity.
  - rewrite lookup_insert_ne by assumption. reflexivity.
Qed.

Lemma count_dd_incr (d : gmap Z Z) (k k' : Z) :
  count (dd_incr d k) k' = count d k' + (if decide (k' = k) then 1 else 0).
Proof.
  unfold dd_incr.
  pose proof (dd_get_fst d k) as Hv. pose proof (count_dd_get d k k') as Hd.
  destruct (dd_get d k) as [v d']. simpl in Hv, Hd. subst v.
  unfold count at 1. destruct (decide (k' = k)) as [->|Hne].
  - rewrite lookup_insert_eq. simpl. lia.
  - rewrite lookup_insert_ne by congruence. fold (count d' k'). lia.
Qed.

Lemma count_empty (k : Z) : count ∅ k = 0.
Proof. unfold count. rewrite lookup_empty. reflexivity. Qed.

Lemma exit_if_zero (n : Z) : exit_if n = 0 <-> n = 0.
Proof.
  unfold exit_if, truthy. destruct (Z.eqb_spec n 0); simpl; split; intros; lia.
Qed.

Lemma exit_if_nonzero (n : Z) : 0 <= n -> (exit_if n <> 0 <-> 0 < n).
Proof.
  unfold exit_if, truthy. destruct (Z.eqb_spec n 0); simpl; split; intros; lia.
Qed.

Section ForEnumerate.

Context {St C E : Type}.
Variable body : nat -> C -> St -> St * list E.

Lemma for_enumerate_cons i c cs st :
  for_enumerate body i (c :: cs) st =
  (fst (for_enumerate body (S i) cs (fst (body i c st))),
   snd (body i c st)
     ++ snd (for_enumerate body (S i) cs (fst (body i c st)))).
Proof.
  cbn [for_enumerate]. destruct (body i c st) as [st1 e1].
  cbn [fst snd]. destruct (for_enumerate body (S i) cs st1) as [st2 e2].
  reflexivity.
Qed.

(** A quantity that every turn raises by between [lo] and [hi] is raised
    by the loop by between [lo] and [hi] per item. *)
Lemma for_enumerate_count (f : St -> Z) (lo hi : Z) :
  (forall i c st, f st + lo <= f (fst (body i c st)) <= f st + hi) ->
  forall cs i st,
    f st + lo * Z.of_nat (length cs)
    <= f (fst (for_enumerate body i cs st))
    <= f st + hi * Z.of_nat (length cs).
Proof.
  intros Hbody. induction cs as [|c cs IH]; intros i st.
  - simpl. lia.
  - rewrite for_enumerate_cons. cbn [fst length].
    specialize (Hbody i c st). specialize (IH (S i) (fst (body i c st))).
    rewrite Nat2Z.inj_succ. lia.
Qed.

(** Every event of the loop is an event of the turn of some item. *)
Lemma for_enumerate_In (e : E) : forall cs i st,
  In e (snd (for_enumerate body i cs st)) ->
  exists j c st', cs !! j = Some c /\ In e (snd (body (i + j) c st')).
Proof.
  induction cs as [|c cs IH]; intros i st Hin.
  - simpl in Hin. tauto.
  - rewrite for_enumerate_cons in Hin. cbn [snd] in Hin.
    apply in_app_or in Hin. destruct Hin as [Hin|Hin].
    + exists 0%nat, c, st. rewrite Nat.add_0_r. auto.
    + destruct (IH _ _ Hin) as (j & c' & st' & Hj & He).
      exists (S j), c', st'. rewrite Nat.add_succ_r. auto.
Qed.

End ForEnumerate.

End PyFacts.
Import PyFacts.

(** ** Facts about one turn of the illumina-updates loop *)

Module IlluminaFacts.
Import Illumina.

Section Workflow.

Variable query_metadata : nat -> Component -> outcome (list RodsItem).
Variable skip_absent_runs : option Z.

Abbreviation skip_test := (Illumina.skip_test skip_absent_runs).
Abbreviation skipped := (Illumina.skipped skip_absent_runs).
Abbreviation body := (Illumina.body query_metadata skip_absent_runs).
Abbreviation loop := (Illumina.loop query_metadata skip_absent_runs).
Abbreviation turn := (Illumina.turn query_metadata skip_absent_runs).

Lemma skipped_eq st r :
  skipped st r =
  truthy_opt skip_absent_runs && (suc st r =? 0)
    && eq_opt (att st r) skip_absent_runs.
Proof.
  unfold skipped, Illumina.skip_test, suc, att.
  destruct (truthy_opt skip_absent_runs); simpl; [|reflexivity].
  rewrite <- (dd_get_fst (success_per_run st) r).
  destruct (dd_get (success_per_run st) r) as [s d]. simpl.
  destruct (s =? 0); simpl; [|reflexivity].
  rewrite <- (dd_get_fst (attempts_per_run st) r).
  destruct (dd_get (attempts_per_run st) r) as [a d']. reflexivity.
Qed.

(** Evaluating the guard changes no counter and no count. *)
Lemma skip_test_snd st r :
  let st' := snd (skip_test st r) in
  num_processed st' = num_processed st /\
  num_errors st' = num_errors st /\
  (forall k, att st' k = att st k) /\
  (forall k, suc st' k = suc st k).
Proof.
  unfold Illumina.skip_test, suc, att.
  destruct (truthy_opt skip_absent_runs); simpl; [|tauto].
  pose proof (count_dd_get (success_per_run st) r) as Hs.
  destruct (dd_get (success_per_run st) r) as [s d]. simpl in *.
  destruct (s =? 0); simpl; [|tauto].
  pose proof (count_dd_get (attempts_per_run st) r) as Ha.
  destruct (dd_get (attempts_per_run st) r) as [a d']. simpl in *. tauto.
Qed.

(** The guard does not look at the two totals. *)
Lemma skipped_counters st st' r :
  att st' r = att st r -> suc st' r = suc st r ->
  skipped st' r = skipped st r.
Proof. intros Ha Hs. rewrite !skipped_eq, Ha, Hs. reflexivity. Qed.

Lemma body_turn i c st :
  num_processed (fst (body i c st)) = num_processed st + 1 /\
  turn i c st (fst (body i c st)) (snd (body i c st)).
Proof.
  unfold Illumina.body.
  set (st0 := mkState (num_processed st + 1) (num_errors st)
                      (attempts_per_run st) (success_per_run st)).
  assert (Hsk : skipped st0 (id_run c) = skipped st (id_run c))
    by (apply skipped_counters; reflexivity).
  destruct (skip_test_snd st0 (id_run c)) as (Hp & He & Ha & Hs).
  unfold Illumina.skipped in Hsk.
  destruct (skip_test st0 (id_run c)) as [skip st1]. simpl in *.
  destruct skip.
  - split; [exact Hp|]. apply turn_skip; auto.
  - destruct (query_metadata i c) as [[|x result]|e] eqn:Hq; simpl.
    + split; [exact Hp|]. apply turn_empty; auto.
      intros k. unfold att at 1. simpl. rewrite count_dd_incr.
      fold (att st1 k). rewrite Ha. reflexivity.
    + split; [exact Hp|]. eapply turn_hit; eauto.
      intros k. unfold suc at 1. simpl. rewrite count_dd_incr.
      fold (suc st1 k). rewrite Hs. reflexivity.
    + split; [exact Hp|]. eapply turn_raise; eauto. simpl. lia.
Qed.

Lemma loop_cons i c cs st :
  loop i (c :: cs) st =
  (fst (loop (S i) cs (fst (body i c st))),
   snd (body i c st) ++ snd (loop (S i) cs (fst (body i c st)))).
Proof. apply for_enumerate_cons. Qed.

Lemma loop_app i cs1 cs2 st :
  loop i (cs1 ++ cs2) st =
  (fst (loop (i + length cs1) cs2 (fst (loop i cs1 st))),
   snd (loop i cs1 st)
     ++ snd (loop (i + length cs1) cs2 (fst (loop i cs1 st)))).
Proof.
  revert i st. induction cs1 as [|c cs1 IH]; intros i st.
  - simpl. rewrite Nat.add_0_r.
    destruct (loop i cs2 st); reflexivity.
  - change ((c :: cs1) ++ cs2) with (c :: (cs1 ++ cs2)).
    rewrite !loop_cons, IH. simpl fst. simpl snd. simpl length.
    rewrite Nat.add_succ_r, app_assoc. reflexivity.
Qed.

(** *** Counting events *)

Lemma tally_app p (a b : list Ev) :
  tally p (a ++ b) = tally p a + tally p b.
Proof. induction a as [|e a IH]; simpl; [reflexivity|]. rewrite IH. lia. Qed.

Lemma tally_nonneg p (ev : list Ev) : 0 <= tally p ev.
Proof. induction ev as [|e ev IH]; simpl; [lia|]. destruct (p e); lia. Qed.

Lemma tally_prints p (l : list RodsItem) :
  (forall x, p (Print x) = false) -> tally p (map Print l) = 0.
Proof.
  intros Hp. induction l as [|x l IH]; simpl; [reflexivity|].
  rewrite Hp, IH. reflexivity.
Qed.

Lemma tally_In p (e : Ev) (ev : list Ev) :
  In e ev -> p e = true -> 1 <= tally p ev.
Proof.
  induction ev as [|e' ev IH]; simpl; [tauto|].
  intros [->|Hin] Hp.
  - rewrite Hp. pose proof (tally_nonneg p ev). lia.
  - specialize (IH Hin Hp). destruct (p e'); lia.
Qed.

(** *** One turn *)

Lemma turn_calls_for i c st st' ev r :
  turn i c st st' ev ->
  calls_for r ev =
  if skipped st (id_run c) then 0
  else if decide (id_run c = r) then 1 else 0.
Proof.
  intros [Hsk|e Hsk|Hsk|x result Hsk]; rewrite Hsk; unfold calls_for;
    cbn [tally is_call_for map]; try rewrite tally_prints by reflexivity;
    try reflexivity; case_bool_decide; case_decide; try tauto; lia.
Qed.

Lemma turn_skips i c st st' ev r :
  turn i c st st' ev ->
  tally (is_skip_for r) ev =
  if skipped st (id_run c) && bool_decide (id_run c = r) then 1 else 0.
Proof.
  intros [Hsk|e Hsk|Hsk|x result Hsk]; rewrite Hsk;
    cbn [tally is_skip_for map andb];
    try rewrite tally_prints by reflexivity; try reflexivity.
  change (bool_decide ("Finding data objects" = skip_msg)) with false.
  rewrite (bool_decide_eq_true_2 (skip_msg = skip_msg)) by reflexivity.
  simpl. destruct (bool_decide (id_run c = r)); reflexivity.
Qed.

Lemma turn_errors i c st st' ev :
  turn i c st st' ev ->
  num_errors st' =
  num_errors st + tally (is_call_with query_metadata is_raise) ev.
Proof.
  intros [Hsk ->|e Hsk Hq ->|Hsk Hq ->|x result Hsk Hq ->];
    cbn [tally is_call_with map]; try rewrite Hq;
    try rewrite tally_prints by reflexivity; simpl; lia.
Qed.

Lemma turn_other i c st st' ev r :
  turn i c st st' ev -> id_run c <> r ->
  att st' r = att st r /\ suc st' r = suc st r.
Proof.
  intros [Hsk He Ha Hs|e Hsk Hq He Ha Hs|Hsk Hq He Ha Hs
         |x result Hsk Hq He Ha Hs] Hne;
    rewrite Ha, Hs; repeat case_decide; try congruence; split; lia.
Qed.

Lemma turn_mono i c st st' ev r :
  turn i c st st' ev ->
  att st r <= att st' r /\ suc st r <= suc st' r.
Proof.
  intros [Hsk He Ha Hs|e Hsk Hq He Ha Hs|Hsk Hq He Ha Hs
         |x result Hsk Hq He Ha Hs];
    rewrite Ha, Hs; repeat case_decide; split; lia.
Qed.

(** A turn that finds the run skipped leaves it skipped. *)
Lemma turn_skipped i c st st' ev r :
  turn i c st st' ev -> skipped st r = true ->
  skipped st' r = true /\ att st' r = att st r /\ suc st' r = suc st r
  /\ calls_for r ev = 0.
Proof.
  intros Ht Hr. pose proof (turn_calls_for _ _ _ _ _ r Ht) as Hc.
  destruct (decide (id_run c = r)) as [Heq|Hne].
  - rewrite Heq, Hr in Hc.
    destruct Ht as [Hsk He Ha Hs|e Hsk|Hsk|x result Hsk];
      try congruence.
    repeat split; auto. rewrite <- Hr. apply skipped_counters; auto.
  - destruct (turn_other _ _ _ _ _ _ Ht Hne) as [Ha Hs]. repeat split; auto.
    + rewrite <- Hr. apply skipped_counters; auto.
    + rewrite Hc. destruct (skipped st (id_run c)); reflexivity.
Qed.

Lemma turn_errors_le i c st st' ev :
  turn i c st st' ev ->
  num_errors st <= num_errors st' <= num_errors st + 1.
Proof.
  intros [Hsk ->|e Hsk Hq ->|Hsk Hq ->|x result Hsk Hq ->]; lia.
Qed.

(** *** The whole loop *)

Ltac turn_of i c st Hnp Ht :=
  rewrite loop_cons; cbn [fst snd];
  destruct (body_turn i c st) as [Hnp Ht].

(** Once skipped, a run stays skipped and is not asked for again. *)
Lemma loop_skipped r cs : forall i st,
  skipped st r = true ->
  skipped (fst (loop i cs st)) r = true /\
  att (fst (loop i cs st)) r = att st r /\
  suc (fst (loop i cs st)) r = suc st r /\
  calls_for r (snd (loop i cs st)) = 0.
Proof.
  induction cs as [|c cs IH]; intros i st Hr.
  - simpl. auto.
  - turn_of i c st Hnp Ht.
    destruct (turn_skipped _ _ _ _ _ r Ht Hr) as (Hr1 & Ha1 & Hs1 & Hc1).
    destruct (IH (S i) _ Hr1) as (Hr2 & Ha2 & Hs2 & Hc2).
    unfold calls_for in *. rewrite tally_app, Hc1, Hc2, Ha2, Hs2.
    auto.
Qed.

Lemma loop_mono r cs : forall i st,
  att st r <= att (fst (loop i cs st)) r /\
  suc st r <= suc (fst (loop i cs st)) r.
Proof.
  induction cs as [|c cs IH]; intros i st.
  - simpl. lia.
  - turn_of i c st Hnp Ht.
    pose proof (turn_mono _ _ _ _ _ r Ht).
    pose proof (IH (S i) (fst (body i c st))). lia.
Qed.

(** A call that found something is counted as a success of its run. *)
Lemma loop_hit j c' cs : forall i st,
  In (Call j c') (snd (loop i cs st)) ->
  is_hit (query_metadata j c') = true ->
  suc st (id_run c') + 1 <= suc (fst (loop i cs st)) (id_run c').
Proof.
  induction cs as [|c cs IH]; intros i st Hin Hhit.
  - simpl in Hin. tauto.
  - revert Hin. turn_of i c st Hnp Ht. intros Hin.
    pose proof (loop_mono (id_run c') cs (S i) (fst (body i c st))) as Hm.
    apply in_app_or in Hin. destruct Hin as [Hin|Hin].
    + destruct Ht as [Hsk He Ha Hs|e Hsk Hq He Ha Hs|Hsk Hq He Ha Hs
                     |x result Hsk Hq He Ha Hs]; simpl in Hin;
        repeat match goal with
               | H : _ \/ _ |- _ => destruct H
               | H : Log _ _ _ _ = Call _ _ |- _ => discriminate H
               | H : Print _ = Call _ _ |- _ => discriminate H
               | H : Call _ _ = Call _ _ |- _ =>
                   injection H as <- <-
               | H : False |- _ => destruct H
               end;
        try (rewrite Hq in Hhit; discriminate Hhit).
      * rewrite Hs in Hm. case_decide; [lia|congruence].
      * apply in_map_iff in H. destruct H as (y & Hy & _). discriminate Hy.
    + specialize (IH _ _ Hin Hhit).
      pose proof (turn_mono _ _ _ _ _ (id_run c') Ht). lia.
Qed.

(** A run that is never found skipped has no skip in the log. *)
Lemma loop_no_skip r cs : forall i st,
  (forall cs1 cs2, cs = cs1 ++ cs2 ->
                   skipped (fst (loop i cs1 st)) r = false) ->
  tally (is_skip_for r) (snd (loop i cs st)) = 0.
Proof.
  induction cs as [|c cs IH]; intros i st Hpre.
  - reflexivity.
  - pose proof (Hpre [] (c :: cs) eq_refl) as H0. simpl in H0.
    turn_of i c st Hnp Ht.
    rewrite tally_app, (turn_skips _ _ _ _ _ r Ht), IH.
    + case_bool_decide as Hc; [|rewrite andb_false_r; reflexivity].
      rewrite Hc, H0. reflexivity.
    + intros cs1 cs2 Hcs. specialize (Hpre (c :: cs1) cs2).
      rewrite <- app_comm_cons, loop_cons in Hpre. apply Hpre.
      rewrite Hcs. reflexivity.
Qed.

(** Every component is counted once; only calls that raise are errors. *)
Lemma loop_totals cs : forall i st,
  num_processed (fst (loop i cs st))
  = num_processed st + Z.of_nat (length cs) /\
  num_errors (fst (loop i cs st))
  = num_errors st
    + tally (is_call_with query_metadata is_raise) (snd (loop i cs st)) /\
  num_errors st <= num_errors (fst (loop i cs st))
  <= num_errors st + Z.of_nat (length cs).
Proof.
  induction cs as [|c cs IH]; intros i st.
  - simpl. lia.
  - turn_of i c st Hnp Ht.
    destruct (IH (S i) (fst (body i c st))) as (Hp & He & Hle).
    pose proof (turn_errors _ _ _ _ _ Ht).
    pose proof (turn_errors_le _ _ _ _ _ Ht).
    rewrite tally_app. cbn [length]. lia.
Qed.

(** While every lookup for run [r] comes back empty, the calls made for
    it are the attempts counted, and these stop at the limit. *)
Lemma loop_empty_bound n r cs : forall i st,
  skip_absent_runs = Some n -> 1 <= n ->
  (forall j c, cs !! j = Some c -> id_run c = r ->
               query_metadata (i + j)%nat c = Returned []) ->
  suc st r = 0 -> att st r <= n ->
  suc (fst (loop i cs st)) r = 0 /\
  att (fst (loop i cs st)) r <= n /\
  calls_for r (snd (loop i cs st)) = att (fst (loop i cs st)) r - att st r.
Proof.
  induction cs as [|c cs IH]; intros i st HN Hn Hq Hs Ha.
  - simpl. unfold calls_for. simpl. lia.
  - turn_of i c st Hnp Ht.
    pose proof (turn_calls_for _ _ _ _ _ r Ht) as Hc.
    assert (Hq' : forall j c0, cs !! j = Some c0 -> id_run c0 = r ->
              query_metadata (S i + j)%nat c0 = Returned []).
    { intros j c0 Hj Hr. specialize (Hq (S j) c0 Hj Hr).
      rewrite Nat.add_succ_r in Hq. exact Hq. }
    assert (Hstep : suc (fst (body i c st)) r = 0 /\
                    att (fst (body i c st)) r <= n /\
                    calls_for r (snd (body i c st))
                    = att (fst (body i c st)) r - att st r).
    { destruct (decide (id_run c = r)) as [Heq|Hne].
      - specialize (Hq 0%nat c eq_refl Heq). rewrite Nat.add_0_r in Hq.
        rewrite Heq in Hc.
        destruct Ht as [Hk He Ha1 Hs1|e Hk Hq1 He Ha1 Hs1|Hk Hq1 He Ha1 Hs1
                       |x result Hk Hq1 He Ha1 Hs1];
          try congruence; rewrite Heq in Hk; rewrite Hk in Hc;
          rewrite Hc, Ha1, Hs1.
        + lia.
        + rewrite skipped_eq, HN, Hs in Hk. unfold truthy_opt, truthy in Hk.
          cbn [eq_opt] in Hk. case_decide; [|congruence].
          destruct (Z.eqb_spec n 0); [lia|]. simpl in Hk.
          destruct (Z.eqb_spec (att st r) n); [discriminate|]. lia.
      - destruct (turn_other _ _ _ _ _ _ Ht Hne) as [Ha1 Hs1].
        rewrite Hc, Ha1, Hs1.
        destruct (skipped st (id_run c)); lia. }
    destruct Hstep as (Hs1 & Ha1 & Hc1).
    destruct (IH (S i) _ HN Hn Hq' Hs1 Ha1) as (Hs2 & Ha2 & Hc2).
    unfold calls_for in *. rewrite tally_app, Hc1, Hc2. lia.
Qed.

End Workflow.

Lemma summary_calls_for r (ev : list Ev) a b :
  calls_for r (ev ++ [Summary a b]) = calls_for r ev.
Proof. unfold calls_for. rewrite tally_app. simpl. lia. Qed.

Lemma events_illumina_updates qm N cs :
  events (illumina_updates qm N cs)
  = snd (loop qm N 0 cs initial)
      ++ [Summary (num_processed (fst (loop qm N 0 cs initial)))
                  (num_errors (fst (loop qm N 0 cs initial)))].
Proof.
  unfold illumina_updates. destruct (loop qm N 0 cs initial). reflexivity.
Qed.

Lemma skipped_true_inv n st r :
  skipped (Some n) st r = true -> suc st r = 0 /\ att st r = n.
Proof.
  rewrite skipped_eq. cbn [eq_opt]. intros H.
  apply andb_prop in H. destruct H as [H Ha].
  apply andb_prop in H. destruct H as [_ Hs]. lia.
Qed.

(** C1. Retry-skip bound. For a limit [n] between 1 and 100 and a run [r]:
    if every lookup for a component of [r] returns nothing, at most [n]
    calls to the store are made for [r]; at whatever point of the scan [r]
    is found skipped, exactly [n] calls have been made for it and none
    is made in the rest of the scan.  And if the [k]-th call for [r], with
    [k <= n], returns something, [r] is skipped at no point of the scan and
    no skip of [r] is logged. *)
Theorem retry_skip_bound
  (qm : nat -> Component -> outcome (list RodsItem))
  (n r : Z) (cs : list Component) :
  1 <= n <= 100 ->
  let ev := events (illumina_updates qm (Some n) cs) in
  let after cs1 := loop qm (Some n) 0 cs1 initial in
  ((forall j c, cs !! j = Some c -> id_run c = r -> qm j c = Returned []) ->
   calls_for r ev <= n /\
   forall cs1 cs2, cs = cs1 ++ cs2 ->
     skipped (Some n) (fst (after cs1)) r = true ->
     calls_for r (snd (after cs1)) = n /\
     calls_for r (snd (loop qm (Some n) (length cs1) cs2 (fst (after cs1))))
     = 0)
  /\
  (forall t1 j c t2,
     ev = t1 ++ Call j c :: t2 -> id_run c = r ->
     is_hit (qm j c) = true -> calls_for r t1 + 1 <= n ->
     (forall cs1 cs2, cs = cs1 ++ cs2 ->
        skipped (Some n) (fst (after cs1)) r = false) /\
     tally (is_skip_for r) ev = 0).
Proof.
  intros Hn ev after. subst ev after. cbv beta.
  rewrite events_illumina_updates. split.
  - intros Hempty. split.
    + rewrite summary_calls_for.
      destruct (loop_empty_bound qm (Some n) n r cs 0 initial eq_refl)
        as (_ & Ha & Hc); try lia; try apply count_empty.
      * exact Hempty.
      * unfold att. simpl. rewrite count_empty. lia.
      * rewrite Hc. unfold att at 2. simpl. rewrite count_empty. lia.
    + intros cs1 cs2 Hcs Hsk.
      destruct (skipped_true_inv _ _ _ Hsk) as [_ Hatt]. split.
      * destruct (loop_empty_bound qm (Some n) n r cs1 0 initial eq_refl)
          as (_ & _ & Hc); try lia; try apply count_empty.
        -- intros j c Hj. apply Hempty. rewrite Hcs.
           apply lookup_app_l_Some. exact Hj.
        -- unfold att. simpl. rewrite count_empty. lia.
        -- rewrite Hc, Hatt. unfold att. simpl. rewrite count_empty. lia.
      * apply (loop_skipped qm (Some n) r cs2 _ _ Hsk).
  - intros t1 j c t2 Hev Hr Hhit _.
    assert (Hin : In (Call j c) (snd (loop qm (Some n) 0 cs initial))).
    { assert (Hin : In (Call j c : Ev) (t1 ++ Call j c :: t2))
        by (apply in_or_app; right; left; reflexivity).
      rewrite <- Hev in Hin. apply in_app_or in Hin.
      destruct Hin as [Hin|[Hin|[]]]; [exact Hin|discriminate Hin]. }
    pose proof (loop_hit qm (Some n) j c cs 0 initial Hin Hhit) as Hsuc.
    rewrite Hr in Hsuc. unfold suc at 1 in Hsuc. simpl in Hsuc.
    rewrite count_empty in Hsuc.
    assert (Hnever : forall cs1 cs2, cs = cs1 ++ cs2 ->
              skipped (Some n) (fst (loop qm (Some n) 0 cs1 initial)) r
              = false).
    { intros cs1 cs2 Hcs.
      destruct (skipped (Some n) (fst (loop qm (Some n) 0 cs1 initial)) r)
        eqn:Hsk; [exfalso|reflexivity].
      destruct (skipped_true_inv _ _ _ Hsk) as [Hs0 _].
      destruct (loop_skipped qm (Some n) r cs2 (0 + length cs1)%nat _ Hsk)
        as (_ & _ & Hs & _).
      rewrite Hcs, loop_app in Hsuc. cbn [fst] in Hsuc. lia. }
    split; [exact Hnever|].
    rewrite tally_app, (loop_no_skip qm (Some n) r cs 0 initial Hnever).
    reflexivity.
Qed.

Import Samples.

Lemma retry_skip_bound_witness :
  calls_for 7 (events (illumina_updates never (Some 2) scan5)) <= 2 /\
  tally (is_skip_for 7) (events (illumina_updates second (Some 2) scan5)) = 0.
Proof.
  split.
  - apply (retry_skip_bound never 2 7 scan5); [lia|].
    intros j c _ _. reflexivity.
  - pose (ev := events (illumina_updates second (Some 2) scan5)).
    apply (proj2 (retry_skip_bound second 2 7 scan5 ltac:(lia))
             (firstn 3 ev) 1%nat c7 (skipn 4 ev));
      [reflexivity | reflexivity | reflexivity | vm_compute; discriminate].
Defined.

(** C2, as the code has it. For every run [r], one turn of the loop adds one
    to the attempts of [r] exactly when it makes a call for a component of
    [r] that returns nothing, whatever the successes of [r], and adds one
    to the successes of [r] exactly when that call returns something; the
    attempts are not reset by a success, no counter ever goes down, and a
    component of another run changes neither counter of [r]. *)
Theorem attempts_counter_rule
  (qm : nat -> Component -> outcome (list RodsItem)) (N : option Z)
  (i : nat) (c : Component) (st : State) (r : Z) :
  let st' := fst (body qm N i c st) in
  let asked := bool_decide (id_run c = r) && negb (skipped N st r) in
  att st' r = att st r + (if asked && is_empty (qm i c) then 1 else 0) /\
  suc st' r = suc st r + (if asked && is_hit (qm i c) then 1 else 0) /\
  att st r <= att st' r /\
  (is_hit (qm i c) = true -> att st' r = att st r) /\
  (id_run c <> r -> att st' r = att st r /\ suc st' r = suc st r).
Proof.
  intros st' asked. subst st' asked.
  destruct (body_turn qm N i c st) as [_ Ht].
  pose proof (turn_mono _ _ _ _ _ _ _ r Ht) as [Hm _].
  assert (Hex :
    att (fst (body qm N i c st)) r
    = att st r + (if bool_decide (id_run c = r) && negb (skipped N st r)
                     && is_empty (qm i c) then 1 else 0) /\
    suc (fst (body qm N i c st)) r
    = suc st r + (if bool_decide (id_run c = r) && negb (skipped N st r)
                     && is_hit (qm i c) then 1 else 0)).
  { case_bool_decide as Hr.
    - rewrite <- Hr.
      destruct Ht as [Hsk He Ha Hs|e Hsk Hq He Ha Hs|Hsk Hq He Ha Hs
                     |x result Hsk Hq He Ha Hs];
        rewrite Hsk, Ha, Hs; try rewrite Hq; simpl;
        repeat case_decide; try congruence; lia.
    - destruct (turn_other _ _ _ _ _ _ _ _ Ht Hr) as [-> ->]. simpl. lia. }
  destruct Hex as [Ha Hs]. repeat split; auto.
  - intros Hhit. rewrite Ha. destruct (qm i c) as [[|x l]|e];
      try discriminate Hhit. simpl. rewrite andb_false_r. lia.
  - apply (turn_other _ _ _ _ _ _ _ _ Ht H).
  - apply (turn_other _ _ _ _ _ _ _ _ Ht H).
Qed.

Lemma attempts_counter_rule_witness :
  att (fst (body first (Some 10) 1 c7
              (fst (loop first (Some 10) 0 [c7] initial)))) 7
  = att (fst (loop first (Some 10) 0 [c7] initial)) 7 + 1 /\
  att (fst (body second (Some 10) 1 c7
              (fst (loop second (Some 10) 0 [c7] initial)))) 7
  = att (fst (loop second (Some 10) 0 [c7] initial)) 7.
Proof.
  split.
  - exact (proj1 (attempts_counter_rule first (Some 10) 1 c7
                    (fst (loop first (Some 10) 0 [c7] initial)) 7)).
  - apply (proj1 (proj2 (proj2 (proj2
             (attempts_counter_rule second (Some 10) 1 c7
                (fst (loop second (Some 10) 0 [c7] initial)) 7))))).
    reflexivity.
Defined.

(** C2, as stated, fails. With a limit of 10, a scan [c7; c7] over a store
    that answers the first lookup only leaves run 7 with one success and
    one attempt: the empty second lookup was counted although a success
    was recorded.  And a scan [c7; c7] over a store that answers the second
    lookup only leaves one attempt: the success did not reset it. *)
Lemma attempts_counter_counterexample :
  (suc (fst (loop first (Some 10) 0 [c7] initial)) 7 = 1 /\
   att (fst (loop first (Some 10) 0 [c7] initial)) 7 = 0 /\
   is_empty (first 1%nat c7) = true /\
   att (fst (loop first (Some 10) 0 [c7; c7] initial)) 7 = 1) /\
  (att (fst (loop second (Some 10) 0 [c7] initial)) 7 = 1 /\
   is_hit (second 1%nat c7) = true /\
   att (fst (loop second (Some 10) 0 [c7; c7] initial)) 7 = 1 /\
   att (fst (loop second (Some 10) 0 [c7; c7] initial)) 7 <> 0).
Proof. vm_compute. repeat split; discriminate. Qed.

Lemma run_illumina_updates qm N cs :
  processed (illumina_updates qm N cs)
  = num_processed (fst (loop qm N 0 cs initial)) /\
  errors (illumina_updates qm N cs)
  = num_errors (fst (loop qm N 0 cs initial)) /\
  exit_code (illumina_updates qm N cs)
  = exit_if (num_errors (fst (loop qm N 0 cs initial))).
Proof.
  unfold illumina_updates. destruct (loop qm N 0 cs initial). auto.
Qed.

(** C4. When the lookup for a component raises, the turn ends with the
    exception logged and [num_errors] one higher, the attempts and the
    successes of every run are what they were, and the loop goes on with
    the next component, down to the last. *)
Theorem lookup_error_is_counted
  (qm : nat -> Component -> outcome (list RodsItem)) (N : option Z)
  (i : nat) (c : Component) (cs : list Component) (st : State) (e : string) :
  skipped N st (id_run c) = false ->
  qm i c = Raised e ->
  let st' := fst (body qm N i c st) in
  snd (body qm N i c st)
  = [Log Info "Finding data objects" i c; Call i c; Log Exception e i c] /\
  num_errors st' = num_errors st + 1 /\
  (forall k, att st' k = att st k /\ suc st' k = suc st k) /\
  loop qm N i (c :: cs) st
  = (fst (loop qm N (S i) cs st'),
     snd (body qm N i c st) ++ snd (loop qm N (S i) cs st')) /\
  num_processed (fst (loop qm N i (c :: cs) st))
  = num_processed st + 1 + Z.of_nat (length cs).
Proof.
  intros Hsk Hq st'. subst st'.
  destruct (body_turn qm N i c st) as [Hnp Ht].
  destruct (loop_totals qm N cs (S i) (fst (body qm N i c st))) as [Hp _].
  rewrite loop_cons. cbn [fst].
  remember (snd (body qm N i c st)) as ev eqn:Hev.
  destruct Ht as [Hk He Ha Hs|e' Hk Hq' He Ha Hs|Hk Hq' He Ha Hs
                 |x result Hk Hq' He Ha Hs]; try congruence.
  assert (e' = e) as -> by congruence.
  repeat split; auto; lia.
Qed.

Lemma lookup_error_is_counted_witness :
  num_errors (fst (body broken (Some 2) 1 c7 initial)) = num_errors initial + 1.
Proof.
  apply (lookup_error_is_counted broken (Some 2) 1 c7 [] initial "RodsError");
    reflexivity.
Defined.

(** C5. A component of a skipped run is passed over with a line in the log
    at the information level and no call to the store, and [num_errors]
    stays as it is.  Over a whole scan the number of errors reported at the
    end is the number of calls to the store that raised: skips are not in
    it. *)
Theorem skip_is_not_an_error
  (qm : nat -> Component -> outcome (list RodsItem)) (N : option Z)
  (i : nat) (c : Component) (st : State) :
  skipped N st (id_run c) = true ->
  (snd (body qm N i c st)
   = [Log Info "Finding data objects" i c; Log Info skip_msg i c] /\
   num_errors (fst (body qm N i c st)) = num_errors st) /\
  forall cs,
    let run := illumina_updates qm N cs in
    errors run = tally (is_call_with qm is_raise) (events run) /\
    In (Summary (processed run) (errors run)) (events run).
Proof.
  intros Hsk. split.
  - destruct (body_turn qm N i c st) as [_ Ht].
    remember (snd (body qm N i c st)) as ev eqn:Hev.
    destruct Ht; try congruence. auto.
  - intros cs run. subst run.
    destruct (run_illumina_updates qm N cs) as (Hp & He & _).
    destruct (loop_totals qm N cs 0 initial) as (_ & Hn & _).
    rewrite events_illumina_updates, Hp, He, tally_app, Hn. split.
    + simpl. lia.
    + apply in_or_app. right. left. reflexivity.
Qed.

Lemma skip_is_not_an_error_witness :
  num_errors (fst (body never (Some 2) 2 c7
                     (fst (loop never (Some 2) 0 [c7; c7] initial))))
  = num_errors (fst (loop never (Some 2) 0 [c7; c7] initial)).
Proof.
  apply (skip_is_not_an_error never (Some 2) 2 c7
           (fst (loop never (Some 2) 0 [c7; c7] initial))).
  reflexivity.
Defined.

(** C10. Every turn of the loop adds one to [num_processed], whatever
    happens to the component, so the count reported is the number of
    components scanned, and the number of errors is between zero and
    that count. *)
Theorem every_component_is_counted
  (qm : nat -> Component -> outcome (list RodsItem)) (N : option Z)
  (cs : list Component) :
  (forall i c st, num_processed (fst (body qm N i c st))
                  = num_processed st + 1) /\
  processed (illumina_updates qm N cs) = Z.of_nat (length cs) /\
  0 <= errors (illumina_updates qm N cs)
    <= processed (illumina_updates qm N cs).
Proof.
  split.
  - intros i c st. apply body_turn.
  - destruct (run_illumina_updates qm N cs) as (-> & -> & _).
    destruct (loop_totals qm N cs 0 initial) as (Hp & _ & Hle).
    simpl in Hp, Hle. lia.
Qed.

End IlluminaFacts.

(** ** Facts about consent-withdrawn *)

Module ConsentFacts.
Import Consent Consent.Samples.

Lemma objects_below_objects (colls : list RodsItem) :
  Forall (fun x => rods_type x = DataObject) (objects_below colls).
Proof.
  apply List.Forall_forall. intros x Hx. unfold objects_below in Hx.
  apply in_flat_map in Hx. destruct Hx as (coll & _ & Hx).
  apply List.filter_In in Hx. destruct Hx as [_ Hx].
  unfold is_data_object in Hx. destruct (rods_type x); congruence.
Qed.

Lemma in_prints (x : RodsItem) (l : list RodsItem) :
  In (Print x : Ev) (map Print l) -> In x l.
Proof.
  intros H. apply in_map_iff in H. destruct H as (y & Hy & Hin). congruence.
Qed.

(** What a turn prints is a data object, when the store keeps its word. *)
Lemma body_prints qm i s st x :
  objects_only qm ->
  In (Print x) (snd (body qm i s st)) -> rods_type x = DataObject.
Proof.
  intros Hqm. unfold body.
  destruct (id_sample_lims s) as [id|]; cbn [snd].
  - destruct (qm i (mkRequest id true false)) as [os|e] eqn:Hos; cbn [snd].
    + assert (Hobjs : Forall (fun x => rods_type x = DataObject) os)
        by (apply (Hqm i (mkRequest id true false)); auto).
      rewrite List.Forall_forall in Hobjs.
      destruct (qm i (mkRequest id false true)) as [cs|e]; cbn [snd];
        intros H;
        (apply in_inv in H; destruct H as [H|H]; [discriminate H|]);
        (apply in_inv in H; destruct H as [H|H]; [discriminate H|]);
        apply in_app_or in H; destruct H as [H|H];
        try (apply Hobjs, in_prints, H);
        apply in_inv in H; destruct H as [H|H]; try discriminate H.
      * apply in_prints in H. revert x H. apply List.Forall_forall.
        apply objects_below_objects.
      * apply in_inv in H. destruct H as [H|[]]. discriminate H.
    + simpl. intros [H|[H|[H|[]]]]; discriminate H.
  - simpl. intros [H|[H|[]]]; discriminate H.
Qed.

Lemma consent_body_totals qm i s st :
  num_processed (fst (body qm i s st)) = num_processed st + 1 /\
  num_errors st <= num_errors (fst (body qm i s st)) <= num_errors st + 1.
Proof.
  unfold body. destruct (id_sample_lims s) as [id|]; cbn.
  - destruct (qm i (mkRequest id true false)); cbn; [|lia].
    destruct (qm i (mkRequest id false true)); cbn; lia.
  - lia.
Qed.

Lemma consent_loop_totals qm ss i st :
  num_processed (fst (loop qm i ss st))
  = num_processed st + Z.of_nat (length ss) /\
  num_errors st <= num_errors (fst (loop qm i ss st))
  <= num_errors st + Z.of_nat (length ss).
Proof.
  unfold loop.
  pose proof (for_enumerate_count (body qm) num_processed 1 1) as Hp.
  pose proof (for_enumerate_count (body qm) num_errors 0 1) as He.
  assert (Hb : forall i c st,
             num_processed st + 1 <= num_processed (fst (body qm i c st))
             <= num_processed st + 1 /\
             num_errors st + 0 <= num_errors (fst (body qm i c st))
             <= num_errors st + 1)
    by (intros j c st'; pose proof (consent_body_totals qm j c st'); lia).
  specialize (Hp (fun i c st => proj1 (Hb i c st)) ss i st).
  specialize (He (fun i c st => proj2 (Hb i c st)) ss i st).
  lia.
Qed.

Lemma run_consent_withdrawn qm ss :
  processed (consent_withdrawn qm ss)
  = num_processed (fst (loop qm 0 ss initial)) /\
  errors (consent_withdrawn qm ss)
  = num_errors (fst (loop qm 0 ss initial)) /\
  exit_code (consent_withdrawn qm ss)
  = exit_if (num_errors (fst (loop qm 0 ss initial))) /\
  events (consent_withdrawn qm ss)
  = snd (loop qm 0 ss initial)
      ++ [Summary (num_processed (fst (loop qm 0 ss initial)))
                  (num_errors (fst (loop qm 0 ss initial)))].
Proof.
  unfold consent_withdrawn. destruct (loop qm 0 ss initial). auto.
Qed.

(** C6. A sample without [id_sample_lims] is counted as processed and as
    an error, the error is logged, no request is made to the store for it,
    and the loop goes on with the samples that follow, down to the last. *)
Theorem missing_identifier_is_counted
  (qm : nat -> Request -> outcome (list RodsItem))
  (i : nat) (s : Sample) (ss : list Sample) (st : State) :
  id_sample_lims s = None ->
  body qm i s st
  = (mkState (num_processed st + 1) (num_errors st + 1),
     [Log Info "Finding data objects" i s;
      Log Error "Missing id_sample_lims" i s]) /\
  Forall (fun e => is_call e = false) (snd (body qm i s st)) /\
  loop qm i (s :: ss) st
  = (fst (loop qm (S i) ss (fst (body qm i s st))),
     snd (body qm i s st) ++ snd (loop qm (S i) ss (fst (body qm i s st)))) /\
  num_processed (fst (loop qm i (s :: ss) st))
  = num_processed st + 1 + Z.of_nat (length ss).
Proof.
  intros Hnone.
  assert (Hbody : body qm i s st
                  = (mkState (num_processed st + 1) (num_errors st + 1),
                     [Log Info "Finding data objects" i s;
                      Log Error "Missing id_sample_lims" i s])).
  { unfold body. rewrite Hnone. reflexivity. }
  split; [exact Hbody|]. split.
  - rewrite Hbody. cbn [snd]. repeat constructor.
  - split.
    + apply for_enumerate_cons.
    + destruct (consent_loop_totals qm (s :: ss) i st) as [Hp _].
      rewrite Hp. cbn [length]. lia.
Qed.

Lemma missing_identifier_is_counted_witness :
  body store 0 anon initial
  = (mkState 1 1,
     [Log Info "Finding data objects" 0 anon;
      Log Error "Missing id_sample_lims" 0 anon]).
Proof.
  apply (missing_identifier_is_counted store 0 anon [s12] initial).
  reflexivity.
Defined.

(** C9. Over a store whose searches with [collection=False] return data
    objects only, everything consent-withdrawn prints is a data object: a
    collection, and so the collection matched, is never printed.  When both
    searches return, what is printed is the objects matched and then, of
    all that lies below the collections matched, the data objects. *)
Theorem only_data_objects_are_printed
  (qm : nat -> Request -> outcome (list RodsItem)) (ss : list Sample) :
  objects_only qm ->
  (forall x, In (Print x) (events (consent_withdrawn qm ss)) ->
             rods_type x = DataObject) /\
  (forall p contents,
      ~ In (Print (Coll p contents)) (events (consent_withdrawn qm ss))) /\
  (forall i s st id os cs,
      id_sample_lims s = Some id ->
      qm i (mkRequest id true false) = Returned os ->
      qm i (mkRequest id false true) = Returned cs ->
      snd (body qm i s st)
      = Log Info "Finding data objects" i s
          :: Call i (mkRequest id true false) :: map Print os
          ++ Call i (mkRequest id false true)
          :: map Print
               (flat_map (fun coll =>
                  List.filter (fun item => is_data_object item)
                              (iter_contents true coll)) cs)).
Proof.
  intros Hqm.
  assert (Hall : forall x, In (Print x) (events (consent_withdrawn qm ss)) ->
                           rods_type x = DataObject).
  { intros x Hin.
    destruct (run_consent_withdrawn qm ss) as (_ & _ & _ & Hev).
    rewrite Hev in Hin. apply in_app_or in Hin.
    destruct Hin as [Hin|[Hin|[]]]; [|discriminate Hin].
    apply for_enumerate_In in Hin.
    destruct Hin as (j & s & st' & _ & Hin).
    apply (body_prints qm _ s st' x Hqm Hin). }
  split; [exact Hall|]. split.
  - intros p contents Hin. apply Hall in Hin. discriminate Hin.
  - intros i s st id os cs Hid Hos Hcs. unfold body.
    rewrite Hid, Hos, Hcs. reflexivity.
Qed.

Lemma store_objects_only : objects_only store.
Proof.
  intros i q l Hq. unfold store. rewrite Hq. intros [= <-].
  repeat constructor.
Qed.

Lemma only_data_objects_are_printed_witness :
  ~ In (Print run_folder) (events (consent_withdrawn store [anon; s12])).
Proof.
  apply (only_data_objects_are_printed store [anon; s12] store_objects_only).
Defined.

End ConsentFacts.

(** ** Facts about ont-updates *)

Module OntFacts.
Import Ont Ont.Samples.

Section Workflow.

Variable query_metadata : nat -> Component -> outcome (list RodsItem).
Variable barcode_collections :
  nat -> RodsItem -> string -> outcome (list RodsItem).
Variable report_tags : bool.

Abbreviation report := (Ont.report barcode_collections report_tags).
Abbreviation body :=
  (Ont.body query_metadata barcode_collections report_tags).
Abbreviation loop :=
  (Ont.loop query_metadata barcode_collections report_tags).

(** Without the option, or without a tag, the collections matched are
    printed as they are and nothing can fail. *)
Lemma report_plain i c colls :
  report_tags = false \/ tag_identifier c = None ->
  report i c colls = (map Print colls, None).
Proof.
  intros Hor. induction colls as [|coll rest IH]; [reflexivity|].
  cbn [Ont.report map]. rewrite IH.
  destruct Hor as [->| ->]; [reflexivity|].
  destruct report_tags; reflexivity.
Qed.

(** A look for barcode collections is made at the item at hand, with the
    option set and with the tag of the component. *)
Lemma report_calls i c k coll tag : forall colls,
  In (Call k (BarcodeCollections coll tag)) (fst (report i c colls)) ->
  k = i /\ report_tags = true /\ tag_identifier c = Some tag.
Proof.
  destruct report_tags.
  - induction colls as [|coll' rest IH]; cbn [Ont.report fst].
    + intros [].
    + destruct (tag_identifier c) as [t|] eqn:Htag.
      * destruct (barcode_collections i coll' t) as [bcolls|e].
        -- destruct (Ont.report barcode_collections true i c rest)
             as [ev r].
           cbn [fst] in *. intros Hin.
           apply in_inv in Hin. destruct Hin as [Hin|Hin].
           ++ injection Hin as <- _ <-. auto.
           ++ apply in_app_or in Hin. destruct Hin as [Hin|Hin].
              ** apply in_map_iff in Hin.
                 destruct Hin as (y & Hy & _). discriminate Hy.
              ** apply IH, Hin.
        -- cbn [fst]. intros [Hin|[]]. injection Hin as <- _ <-. auto.
      * destruct (Ont.report barcode_collections true i c rest)
          as [ev r].
        cbn [fst] in *. intros [Hin|Hin]; [discriminate Hin|].
        apply IH, Hin.
  - induction colls as [|coll' rest IH]; cbn [Ont.report fst].
    + intros [].
    + destruct (Ont.report barcode_collections false i c rest)
        as [ev r].
      cbn [fst] in *. intros [Hin|Hin]; [discriminate Hin|].
      apply IH, Hin.
Qed.

Lemma body_calls i c st k coll tag :
  In (Call k (BarcodeCollections coll tag)) (snd (body i c st)) ->
  k = i /\ report_tags = true /\ tag_identifier c = Some tag.
Proof.
  unfold Ont.body. destruct (query_metadata i c) as [colls|e]; cbn [snd].
  - pose proof (report_calls i c k coll tag colls) as Hrep.
    destruct (report i c colls) as [ev [e|]]; cbn [fst snd] in *;
      intros Hin;
      (apply in_inv in Hin; destruct Hin as [Hin|Hin]; [discriminate Hin|]);
      (apply in_inv in Hin; destruct Hin as [Hin|Hin]; [discriminate Hin|]).
    + apply in_app_or in Hin. destruct Hin as [Hin|[Hin|[]]];
        [apply Hrep, Hin|discriminate Hin].
    + apply Hrep, Hin.
  - simpl. intros [H|[H|[H|[]]]]; discriminate H.
Qed.

Lemma ont_body_totals i c st :
  num_processed (fst (body i c st)) = num_processed st + 1 /\
  num_errors st <= num_errors (fst (body i c st)) <= num_errors st + 1.
Proof.
  unfold Ont.body. destruct (query_metadata i c) as [colls|e]; cbn.
  - destruct (report i c colls) as [ev [e|]]; cbn; lia.
  - lia.
Qed.

Lemma ont_loop_totals cs i st :
  num_processed (fst (loop i cs st))
  = num_processed st + Z.of_nat (length cs) /\
  num_errors st <= num_errors (fst (loop i cs st))
  <= num_errors st + Z.of_nat (length cs).
Proof.
  unfold Ont.loop.
  pose proof (for_enumerate_count body num_processed 1 1) as Hp.
  pose proof (for_enumerate_count body num_errors 0 1) as He.
  specialize (Hp (fun i c st => ltac:(pose proof (ont_body_totals i c st); lia))
                 cs i st).
  specialize (He (fun i c st => ltac:(pose proof (ont_body_totals i c st); lia))
                 cs i st).
  lia.
Qed.

Lemma run_ont_updates cs :
  let run := ont_updates query_metadata barcode_collections report_tags cs in
  processed run = num_processed (fst (loop 0 cs initial)) /\
  errors run = num_errors (fst (loop 0 cs initial)) /\
  exit_code run = exit_if (num_errors (fst (loop 0 cs initial))) /\
  events run
  = snd (loop 0 cs initial)
      ++ [Summary (num_processed (fst (loop 0 cs initial)))
                  (num_errors (fst (loop 0 cs initial)))].
Proof.
  unfold ont_updates. destruct (loop 0 cs initial). cbn. auto.
Qed.

End Workflow.

(** C8. A look for the barcode collections below a collection happens
    only with [report_tags] set and for a component that has a tag
    identifier, whose tag it uses.  In every other case what a component
    prints is the collections matched themselves.  With the option set and
    a tag, a collection matched gives way to the barcode collections found
    below it. *)
Theorem barcode_expansion_on_request
  (qm : nat -> Component -> outcome (list RodsItem))
  (bc : nat -> RodsItem -> string -> outcome (list RodsItem))
  (report_tags : bool) (cs : list Component) :
  (forall i coll tag,
      In (Call i (BarcodeCollections coll tag))
         (events (ont_updates qm bc report_tags cs)) ->
      report_tags = true /\
      exists c, cs !! i = Some c /\ tag_identifier c = Some tag) /\
  (forall i c st colls,
      report_tags = false \/ tag_identifier c = None ->
      qm i c = Returned colls ->
      snd (body qm bc report_tags i c st)
      = Log Info "Finding collections" i c
          :: Call i (FindCollections c) :: map Print colls) /\
  (forall i c coll rest tag bcolls,
      report_tags = true -> tag_identifier c = Some tag ->
      bc i coll tag = Returned bcolls ->
      fst (report bc report_tags i c (coll :: rest))
      = Call i (BarcodeCollections coll tag)
          :: map Print bcolls ++ fst (report bc report_tags i c rest)).
Proof.
  split; [|split].
  - intros i coll tag Hin.
    destruct (run_ont_updates qm bc report_tags cs) as (_ & _ & _ & Hev).
    rewrite Hev in Hin. apply in_app_or in Hin.
    destruct Hin as [Hin|[Hin|[]]]; [|discriminate Hin].
    apply for_enumerate_In in Hin.
    destruct Hin as (j & c & st' & Hj & Hin).
    apply body_calls in Hin. destruct Hin as (-> & Hrt & Htag).
    split; [exact Hrt|]. exists c. auto.
  - intros i c st colls Hor Hq. unfold body.
    rewrite Hq, (report_plain bc report_tags i c colls Hor). reflexivity.
  - intros i c coll rest tag bcolls -> Htag Hbc.
    cbn [report]. rewrite Htag, Hbc.
    destruct (report bc true i c rest). reflexivity.
Qed.

Lemma barcode_expansion_on_request_witness :
  snd (body store barcodes true 0 plain initial)
  = [Log Info "Finding collections" 0 plain;
     Call 0 (FindCollections plain); Print folder] /\
  fst (report barcodes true 0 tagged [folder])
  = [Call 0 (BarcodeCollections folder "NB01"); Print barcode01].
Proof.
  split.
  - apply (proj1 (proj2 (barcode_expansion_on_request
                           store barcodes true [plain; tagged]))
             0%nat plain initial [folder]); [right|]; reflexivity.
  - apply (proj2 (proj2 (barcode_expansion_on_request
                           store barcodes true [plain; tagged]))
             0%nat tagged folder [] "NB01" [barcode01]); reflexivity.
Defined.

End OntFacts.

(** ** Exit codes *)

Module ExitFacts.
Import Cli.

Lemma exit_if_spec (n : Z) :
  0 <= n -> (exit_if n <> 0 <-> 0 < n) /\ (n = 0 -> exit_if n = 0).
Proof.
  intros Hn. split; [apply exit_if_nonzero, Hn|apply exit_if_zero].
Qed.

Lemma report_exit (counts : Z * Z * Z) :
  fst (report counts) = exit_if (snd counts).
Proof.
  destruct counts as [[np nu] ne]. unfold report, exit_if. cbn [snd].
  destruct (truthy ne); reflexivity.
Qed.

(** C7. Each sub-command of locate-data-objects ends with a non-zero exit
    code exactly when it has counted at least one error, and with zero when
    it has counted none.  So do update-secondary-metadata and
    apply-ont-metadata, when they run their worker and the worker's count
    of errors is not negative. *)
Theorem exit_code_reflects_errors
  (samples_store : nat -> Consent.Request -> outcome (list RodsItem))
  (ss : list Consent.Sample)
  (illumina_store : nat -> Illumina.Component -> outcome (list RodsItem))
  (skip_absent_runs : option Z) (ics : list Illumina.Component)
  (ont_store : nat -> Ont.Component -> outcome (list RodsItem))
  (barcode_collections : nat -> RodsItem -> string -> outcome (list RodsItem))
  (report_tags : bool) (ocs : list Ont.Component)
  (update_secondary_metadata : list string -> bool -> bool -> Z * Z * Z)
  (args : UpdateSecondaryMetadata.Args)
  (apply_metadata : Z -> option string -> Z * Z * Z)
  (ont_args : ApplyOntMetadata.Args) :
  let consent := Consent.consent_withdrawn samples_store ss in
  let illumina :=
    Illumina.illumina_updates illumina_store skip_absent_runs ics in
  let ont :=
    Ont.ont_updates ont_store barcode_collections report_tags ocs in
  let updated :=
    update_secondary_metadata
      (UpdateSecondaryMetadata.input args)
      (UpdateSecondaryMetadata.print_update args)
      (UpdateSecondaryMetadata.print_fail args) in
  let applied :=
    apply_metadata (ApplyOntMetadata.begin_date ont_args)
                   (ApplyOntMetadata.zone ont_args) in
  UpdateSecondaryMetadata.version args = false ->
  0 <= snd updated ->
  ApplyOntMetadata.version ont_args = false ->
  0 <= snd applied ->
  ((exit_code consent <> 0 <-> 0 < errors consent) /\
   (errors consent = 0 -> exit_code consent = 0)) /\
  ((exit_code illumina <> 0 <-> 0 < errors illumina) /\
   (errors illumina = 0 -> exit_code illumina = 0)) /\
  ((exit_code ont <> 0 <-> 0 < errors ont) /\
   (errors ont = 0 -> exit_code ont = 0)) /\
  ((fst (UpdateSecondaryMetadata.main update_secondary_metadata args) <> 0
    <-> 0 < snd updated) /\
   (snd updated = 0 ->
    fst (UpdateSecondaryMetadata.main update_secondary_metadata args) = 0)) /\
  ((fst (ApplyOntMetadata.main apply_metadata ont_args) <> 0
    <-> 0 < snd applied) /\
   (snd applied = 0 ->
    fst (ApplyOntMetadata.main apply_metadata ont_args) = 0)).
Proof.
  intros consent illumina ont updated applied Hv Hu Hov Ha.
  subst consent illumina ont updated applied.
  split; [|split; [|split; [|split]]].
  - destruct (ConsentFacts.run_consent_withdrawn samples_store ss)
      as (_ & -> & -> & _).
    apply exit_if_spec.
    pose proof (ConsentFacts.consent_loop_totals
                  samples_store ss 0 Consent.initial) as [_ H].
    simpl in H. lia.
  - destruct (IlluminaFacts.run_illumina_updates
                illumina_store skip_absent_runs ics) as (_ & -> & ->).
    apply exit_if_spec.
    pose proof (IlluminaFacts.loop_totals
                  illumina_store skip_absent_runs ics 0 Illumina.initial)
      as (_ & _ & H). simpl in H. lia.
  - destruct (OntFacts.run_ont_updates
                ont_store barcode_collections report_tags ocs)
      as (_ & -> & -> & _).
    apply exit_if_spec.
    pose proof (OntFacts.ont_loop_totals
                  ont_store barcode_collections report_tags ocs 0 Ont.initial)
      as [_ H]. simpl in H. lia.
  - unfold UpdateSecondaryMetadata.main. rewrite Hv, report_exit.
    apply exit_if_spec, Hu.
  - unfold ApplyOntMetadata.main. rewrite Hov, report_exit.
    apply exit_if_spec, Ha.
Qed.

Lemma exit_code_reflects_errors_witness :
  fst (UpdateSecondaryMetadata.main
         (fun paths _ _ => (Z.of_nat (length paths), 1, 1))
         (UpdateSecondaryMetadata.mkArgs
            false ["/seq/1/1.cram"; "/seq/2/2.cram"] true false)) <> 0
  <-> 0 < 1.
Proof.
  apply (exit_code_reflects_errors
           Consent.Samples.store [Consent.Samples.anon]
           Illumina.Samples.broken (Some 2) Illumina.Samples.scan5
           Ont.Samples.store Ont.Samples.barcodes true [Ont.Samples.tagged]
           (fun paths _ _ => (Z.of_nat (length paths), 1, 1))
           (UpdateSecondaryMetadata.mkArgs
              false ["/seq/1/1.cram"; "/seq/2/2.cram"] true false)
           (fun _ _ => (3, 0, 0))
           (ApplyOntMetadata.mkArgs false 1590969600 None));
    [reflexivity | simpl; lia | reflexivity | simpl; lia].
Defined.

End ExitFacts.

(** ** Facts about the warehouse of the tests *)

Module MlwhFacts.
Import Mlwh.

(** With the comparison of [since] to the three times known, the query
    selects rows of the plan. *)
Lemma find_recent_expt_plan (EARLY LATE LATEST since : Z) (sel : When -> bool) :
  (forall w, (since <=? time_of EARLY LATE LATEST w) = sel w) ->
  find_recent_expt (ont_synthetic_mlwh EARLY LATE LATEST) since
  = distinct (map name (List.filter (fun p => sel (done p)) plan)).
Proof.
  intros Hsel. unfold find_recent_expt, ont_synthetic_mlwh. f_equal.
  induction plan as [|p l IH]; [reflexivity|].
  cbn [map List.filter row_of last_updated]. rewrite Hsel.
  destruct (sel (done p)); cbn [map]; rewrite IH; reflexivity.
Qed.

(** C3. Over the synthetic ONT warehouse, whose even-numbered experiments
    were done at [EARLY], more than a day before [LATE], itself before
    [LATEST]: [find_recent_expt] since [EARLY] returns the eight experiment
    names, since a day before [LATE] the five odd-numbered ones, and since
    a day after [LATEST] nothing. *)
Theorem find_recent_expt_fixture (EARLY LATE LATEST : Z) :
  EARLY < LATE - day -> LATE < LATEST ->
  let mlwh := ont_synthetic_mlwh EARLY LATE LATEST in
  find_recent_expt mlwh EARLY
  = ["simple_experiment_001"; "simple_experiment_002";
     "simple_experiment_003"; "simple_experiment_004";
     "simple_experiment_005"; "multiplexed_experiment_001";
     "multiplexed_experiment_002"; "multiplexed_experiment_003"] /\
  find_recent_expt mlwh (LATE - day)
  = ["simple_experiment_001"; "simple_experiment_003";
     "simple_experiment_005"; "multiplexed_experiment_001";
     "multiplexed_experiment_003"] /\
  find_recent_expt mlwh (LATEST + day) = [].
Proof.
  intros Hearly Hlate mlwh. subst mlwh. unfold day in *.
  split; [|split].
  - rewrite (find_recent_expt_plan _ _ _ _ (fun _ => true)).
    + vm_compute. reflexivity.
    + intros [| |]; cbn [time_of]; apply Z.leb_le; lia.
  - rewrite (find_recent_expt_plan _ _ _ _
               (fun w => match w with Early => false | _ => true end)).
    + vm_compute. reflexivity.
    + intros [| |]; cbn [time_of];
        [apply Z.leb_gt|apply Z.leb_le|apply Z.leb_le]; lia.
  - rewrite (find_recent_expt_plan _ _ _ _ (fun _ => false)).
    + vm_compute. reflexivity.
    + intros [| |]; cbn [time_of]; apply Z.leb_gt; lia.
Qed.

Lemma find_recent_expt_fixture_witness :
  find_recent_expt (ont_synthetic_mlwh 1590969600 1592092800 1593475200)
                   (1593475200 + day) = [].
Proof.
  apply (find_recent_expt_fixture 1590969600 1592092800 1593475200);
    reflexivity.
Defined.

End MlwhFacts.

(** ** More about illumina-updates: the trace as a whole *)

Module IlluminaTrace.
Import Illumina IlluminaFacts Illumina.Samples.

Lemma ill_printed_app (a b : list Ev) :
  printed (a ++ b) = printed a ++ printed b.
Proof. apply flat_map_app. Qed.

Lemma printed_prints {C Q : Type} (l : list RodsItem) :
  printed (map (@Print C Q) l) = l.
Proof.
  induction l as [|x l IH]; [reflexivity|].
  cbn [map]. change (printed (Print x :: map (@Print C Q) l))
    with (x :: printed (map (@Print C Q) l)). rewrite IH. reflexivity.
Qed.

Section Workflow.

Variable query_metadata : nat -> Component -> outcome (list RodsItem).
Variable skip_absent_runs : option Z.

Abbreviation skipped := (Illumina.skipped skip_absent_runs).
Abbreviation body := (Illumina.body query_metadata skip_absent_runs).
Abbreviation loop := (Illumina.loop query_metadata skip_absent_runs).
Abbreviation turn := (Illumina.turn query_metadata skip_absent_runs).

Lemma answers_prints (l : list RodsItem) :
  flat_map (answer query_metadata) (map Print l) = [].
Proof. induction l as [|x l IH]; [reflexivity|]. simpl. exact IH. Qed.

(** A turn prints what its call gave back, and looks up or skips. *)
Lemma turn_trace i c st st' ev :
  turn i c st st' ev ->
  printed ev = flat_map (answer query_metadata) ev /\
  tally is_call ev = (if skipped st (id_run c) then 0 else 1) /\
  tally is_skip ev = (if skipped st (id_run c) then 1 else 0).
Proof.
  intros [Hsk|e Hsk Hq|Hsk Hq|x result Hsk Hq]; rewrite Hsk;
    cbn [tally is_call is_skip];
    try rewrite !tally_prints by reflexivity.
  - repeat split; reflexivity.
  - cbn [flat_map answer printed]. rewrite Hq. repeat split; reflexivity.
  - cbn [flat_map answer printed]. rewrite Hq. repeat split; reflexivity.
  - repeat split; try reflexivity.
    change (printed (Log Info "Finding data objects" i c :: Call i c
                       :: map Print (x :: result)))
      with (printed (map (@Print Component Component) (x :: result))).
    rewrite printed_prints.
    cbn [flat_map answer app]. rewrite Hq.
    change (flat_map (answer query_metadata) (map Print (x :: result)))
      with (flat_map (answer query_metadata)
              (map (@Print Component Component) (x :: result))).
    rewrite answers_prints, app_nil_r. reflexivity.
Qed.

(** The counters of a run are the calls made for it that came back empty,
    and the calls made for it that found something. *)
Lemma turn_account i c st st' ev r :
  turn i c st st' ev ->
  att st' r = att st r + tally (is_call_for_with query_metadata is_empty r) ev /\
  suc st' r = suc st r + tally (is_call_for_with query_metadata is_hit r) ev /\
  tally (is_call_for_with query_metadata is_raise r) ev
  + tally (is_call_for_with query_metadata is_empty r) ev
  + tally (is_call_for_with query_metadata is_hit r) ev
  = calls_for r ev.
Proof.
  unfold calls_for, is_call_for_with.
  intros [Hsk He Ha Hs|e Hsk Hq He Ha Hs|Hsk Hq He Ha Hs
         |x result Hsk Hq He Ha Hs];
    rewrite Ha, Hs;
    cbn [tally is_call_for is_call_with andb];
    try rewrite !tally_prints by reflexivity;
    try rewrite Hq; cbn [is_empty is_hit is_raise];
    try case_bool_decide; repeat case_decide; try congruence; cbn [andb];
    repeat split; lia.
Qed.

Lemma loop_trace cs : forall i st,
  printed (snd (loop i cs st))
  = flat_map (answer query_metadata) (snd (loop i cs st)) /\
  tally is_call (snd (loop i cs st)) + tally is_skip (snd (loop i cs st))
  = Z.of_nat (length cs) /\
  (truthy_opt skip_absent_runs = false ->
   tally is_skip (snd (loop i cs st)) = 0).
Proof.
  induction cs as [|c cs IH]; intros i st.
  - simpl. auto.
  - rewrite loop_cons. cbn [fst snd].
    destruct (body_turn query_metadata skip_absent_runs i c st) as [_ Ht].
    destruct (turn_trace _ _ _ _ _ Ht) as (Hp & Hc & Hs).
    destruct (IH (S i) (fst (body i c st))) as (Hp' & Hc' & Hs').
    rewrite ill_printed_app, flat_map_app, !tally_app, Hp, Hp', Hc, Hs.
    split; [reflexivity|]. split.
    + cbn [length]. destruct (skipped st (id_run c)); lia.
    + intros Hoff. rewrite (Hs' Hoff).
      rewrite skipped_eq, Hoff. reflexivity.
Qed.

Lemma loop_account r cs : forall i st,
  att (fst (loop i cs st)) r
  = att st r
    + tally (is_call_for_with query_metadata is_empty r) (snd (loop i cs st)) /\
  suc (fst (loop i cs st)) r
  = suc st r
    + tally (is_call_for_with query_metadata is_hit r) (snd (loop i cs st)) /\
  tally (is_call_for_with query_metadata is_raise r) (snd (loop i cs st))
  + tally (is_call_for_with query_metadata is_empty r) (snd (loop i cs st))
  + tally (is_call_for_with query_metadata is_hit r) (snd (loop i cs st))
  = calls_for r (snd (loop i cs st)).
Proof.
  induction cs as [|c cs IH]; intros i st.
  - simpl. unfold calls_for. simpl. lia.
  - rewrite loop_cons. cbn [fst snd].
    destruct (body_turn query_metadata skip_absent_runs i c st) as [_ Ht].
    destruct (turn_account _ _ _ _ _ r Ht) as (Ha & Hs & Hc).
    destruct (IH (S i) (fst (body i c st))) as (Ha' & Hs' & Hc').
    unfold calls_for in *. rewrite !tally_app. lia.
Qed.



(** While a run has no success, its attempts stay within the limit. *)
Lemma loop_bounded n r cs : forall i st,
  skip_absent_runs = Some n -> 1 <= n ->
  0 <= suc st r -> (suc st r = 0 -> att st r <= n) ->
  0 <= suc (fst (loop i cs st)) r /\
  (suc (fst (loop i cs st)) r = 0 -> att (fst (loop i cs st)) r <= n).
Proof.
  induction cs as [|c cs IH]; intros i st HN Hn Hs Hb.
  - simpl. auto.
  - rewrite loop_cons. cbn [fst].
    destruct (body_turn query_metadata skip_absent_runs i c st) as [_ Ht].
    apply IH; try assumption.
    + pose proof (turn_mono _ _ _ _ _ _ _ r Ht). lia.
    + destruct (decide (id_run c = r)) as [Heq|Hne].
      * destruct Ht as [Hsk He Ha Hs1|e Hsk Hq He Ha Hs1|Hsk Hq He Ha Hs1
                       |x result Hsk Hq He Ha Hs1];
          rewrite Ha, Hs1; repeat case_decide; try congruence; try lia.
        intros H0. specialize (Hb H0).
        rewrite Heq, skipped_eq, HN, H0 in Hsk.
        cbn [truthy_opt eq_opt] in Hsk. unfold truthy in Hsk.
        destruct (Z.eqb_spec n 0); [lia|]. simpl in Hsk.
        destruct (Z.eqb_spec (att st r) n); [discriminate|]. lia.
      * destruct (turn_other _ _ _ _ _ _ _ _ Ht Hne) as [-> ->]. exact Hb.
Qed.


End Workflow.

Lemma initial_counters (r : Z) : att initial r = 0 /\ suc initial r = 0.
Proof. unfold att, suc. simpl. rewrite count_empty. auto. Qed.

Lemma summary_tally (p : Ev -> bool) (ev : list Ev) a b :
  p (Summary a b) = false -> tally p (ev ++ [Summary a b]) = tally p ev.
Proof. intros Hp. rewrite tally_app. simpl. rewrite Hp. lia. Qed.



(** X2. What illumina-updates prints is what the store gave back to its
    calls, call after call and in the order given: nothing found is left
    out and nothing else is printed. *)
Theorem illumina_prints_what_was_found
  (qm : nat -> Component -> outcome (list RodsItem)) (N : option Z)
  (cs : list Component) :
  printed (events (illumina_updates qm N cs))
  = flat_map (answer qm) (events (illumina_updates qm N cs)).
Proof.
  rewrite events_illumina_updates, ill_printed_app, flat_map_app.
  destruct (loop_trace qm N cs 0 initial) as (Hp & _).
  rewrite Hp. reflexivity.
Qed.

(** X3. A run found skipped at some point of the scan stays skipped to the
    end, whatever the store holds by then: no call is made for any of its
    later components. *)
Theorem skipped_run_is_never_asked_again
  (qm : nat -> Component -> outcome (list RodsItem)) (N : option Z)
  (r : Z) (cs1 cs2 : list Component) :
  skipped N (fst (loop qm N 0 cs1 initial)) r = true ->
  skipped N (fst (loop qm N 0 (cs1 ++ cs2) initial)) r = true /\
  calls_for r (snd (loop qm N (length cs1) cs2 (fst (loop qm N 0 cs1 initial))))
  = 0 /\
  calls_for r (events (illumina_updates qm N (cs1 ++ cs2)))
  = calls_for r (snd (loop qm N 0 cs1 initial)).
Proof.
  intros Hsk.
  destruct (loop_skipped qm N r cs2 (0 + length cs1)%nat _ Hsk)
    as (Hsk2 & _ & _ & Hc).
  rewrite events_illumina_updates, summary_calls_for, loop_app.
  cbn [fst snd]. unfold calls_for in *. rewrite tally_app, Hc.
  repeat split; auto. lia.
Qed.

Lemma skipped_run_is_never_asked_again_witness :
  calls_for 7 (events (illumina_updates late (Some 2) ([c7; c7] ++ [c7; c8; c7])))
  = calls_for 7 (snd (loop late (Some 2) 0 [c7; c7] initial)).
Proof.
  apply (skipped_run_is_never_asked_again late (Some 2) 7 [c7; c7] [c7; c8; c7]).
  reflexivity.
Defined.


(** X5. At the end of a scan the attempts of a run are the calls made for it
    that came back empty and its successes the calls made for it that found
    something; with the calls that raised, these are all the calls made for
    the run. *)
Theorem counters_count_calls
  (qm : nat -> Component -> outcome (list RodsItem)) (N : option Z)
  (r : Z) (cs : list Component) :
  let st := fst (loop qm N 0 cs initial) in
  let ev := events (illumina_updates qm N cs) in
  att st r = tally (is_call_for_with qm is_empty r) ev /\
  suc st r = tally (is_call_for_with qm is_hit r) ev /\
  tally (is_call_for_with qm is_raise r) ev
  + tally (is_call_for_with qm is_empty r) ev
  + tally (is_call_for_with qm is_hit r) ev
  = calls_for r ev.
Proof.
  intros st ev. subst st ev.
  rewrite events_illumina_updates, summary_calls_for.
  rewrite !summary_tally by reflexivity.
  destruct (loop_account qm N r cs 0 initial) as (Ha & Hs & Hsum).
  destruct (initial_counters r) as [Ha0 Hs0].
  rewrite Ha, Hs, Ha0, Hs0. repeat split; lia.
Qed.

(** X6. With a limit [n] of at least one, a run that no call has found has
    at most [n] calls that came back empty, whatever else happened to it:
    calls that raise are not attempts and are not bounded. *)
Theorem empty_lookups_bounded_until_found
  (qm : nat -> Component -> outcome (list RodsItem)) (n r : Z)
  (cs : list Component) :
  1 <= n ->
  let ev := events (illumina_updates qm (Some n) cs) in
  tally (is_call_for_with qm is_hit r) ev = 0 ->
  tally (is_call_for_with qm is_empty r) ev <= n /\
  calls_for r ev <= n + tally (is_call_for_with qm is_raise r) ev.
Proof.
  intros Hn ev. subst ev.
  rewrite events_illumina_updates, summary_calls_for.
  rewrite !summary_tally by reflexivity.
  destruct (loop_account qm (Some n) r cs 0 initial) as (Ha & Hs & Hsum).
  destruct (loop_bounded qm (Some n) n r cs 0 initial eq_refl Hn)
    as (_ & Hb).
  - destruct (initial_counters r) as [_ ->]. lia.
  - destruct (initial_counters r) as [-> _]. lia.
  - intros Hhit. destruct (initial_counters r) as [Ha0 Hs0].
    rewrite Hhit, Hs0 in Hs. rewrite Hhit in Hsum. rewrite Ha0 in Ha.
    specialize (Hb Hs). lia.
Qed.

Lemma empty_lookups_bounded_until_found_witness :
  tally (is_call_for_with never is_empty 7)
        (events (illumina_updates never (Some 2) scan5)) <= 2.
Proof.
  apply (empty_lookups_bounded_until_found never 2 7 scan5);
    [lia|reflexivity].
Defined.



End IlluminaTrace.

(** ** More about consent-withdrawn: the trace as a whole *)

Module ConsentTrace.
Import Consent ConsentFacts Consent.Samples.

Lemma how_many_app {E : Type} (p : E -> bool) (a b : list E) :
  how_many p (a ++ b) = how_many p a + how_many p b.
Proof. induction a as [|e a IH]; simpl; [reflexivity|]. rewrite IH. lia. Qed.

Lemma how_many_nonneg {E : Type} (p : E -> bool) (ev : list E) :
  0 <= how_many p ev.
Proof. induction ev as [|e ev IH]; simpl; [lia|]. destruct (p e); lia. Qed.

Lemma how_many_none {E : Type} (p : E -> bool) (ev : list E) :
  (forall e, In e ev -> p e = false) -> how_many p ev = 0.
Proof.
  induction ev as [|e ev IH]; intros H; simpl; [reflexivity|].
  rewrite (H e) by (left; reflexivity). rewrite IH; [reflexivity|].
  intros e' He'. apply H. right. exact He'.
Qed.




Section Workflow.

Variable query_metadata : nat -> Request -> outcome (list RodsItem).

Abbreviation body := (Consent.body query_metadata).
Abbreviation loop := (Consent.loop query_metadata).
Abbreviation answer := (Consent.answer query_metadata).
Abbreviation is_raising := (Consent.is_raising query_metadata).



(** The requests of a turn carry the identifier of its sample; the search
    for collections comes after a search for objects that returned. *)
Lemma cw_body_calls i s st j q :
  In (Call j q) (snd (body i s st)) ->
  j = i /\ id_sample_lims s = Some (value q) /\
  data_object q = negb (collection q) /\
  (collection q = true ->
   exists os, query_metadata i (mkRequest (value q) true false) = Returned os).
Proof.
  unfold Consent.body.
  destruct (id_sample_lims s) as [id|];
    [|simpl; intros [H|[H|[]]]; discriminate H].
  destruct (query_metadata i (mkRequest id true false)) as [os|e] eqn:Hos.
  - assert (Hfirst : forall (rest : list Ev),
              (In (Call j q) rest ->
               j = i /\ q = mkRequest id false true) ->
              In (Call j q)
                 (Log Info "Finding data objects" i s
                    :: Call i (mkRequest id true false)
                    :: map Print os ++ rest) ->
              j = i /\ Some id = Some (value q) /\
              data_object q = negb (collection q) /\
              (collection q = true ->
               exists os', query_metadata i (mkRequest (value q) true false)
                           = Returned os')).
    { intros rest Hrest Hin.
      apply in_inv in Hin. destruct Hin as [Hin|Hin]; [discriminate Hin|].
      apply in_inv in Hin. destruct Hin as [Hin|Hin].
      - injection Hin as <- <-. cbn. repeat split; auto. discriminate.
      - apply in_app_or in Hin. destruct Hin as [Hin|Hin].
        + apply in_map_iff in Hin. destruct Hin as (x & Hx & _).
          discriminate Hx.
        + destruct (Hrest Hin) as [-> ->]. cbn. repeat split; auto.
          intros _. exists os. exact Hos. }
    destruct (query_metadata i (mkRequest id false true)) as [cs|e];
      cbn [snd]; apply Hfirst; intros Hin;
      apply in_inv in Hin; destruct Hin as [Hin|Hin];
      try (injection Hin as <- <-; auto).
    + apply in_map_iff in Hin. destruct Hin as (x & Hx & _). discriminate Hx.
    + destruct Hin as [Hin|[]]. discriminate Hin.
  - simpl. intros [H|[H|[H|[]]]]; try discriminate H.
    injection H as <- <-. cbn. repeat split; auto. discriminate.
Qed.


End Workflow.

(** X8. consent-withdrawn counts every sample the warehouse yields as
    processed, whatever happens to it, and the errors it reports are between
    zero and that count. *)
Theorem consent_counts_every_sample
  (qm : nat -> Request -> outcome (list RodsItem)) (ss : list Sample) :
  processed (consent_withdrawn qm ss) = Z.of_nat (length ss) /\
  0 <= errors (consent_withdrawn qm ss) <= processed (consent_withdrawn qm ss).
Proof.
  destruct (run_consent_withdrawn qm ss) as (-> & -> & _).
  destruct (consent_loop_totals qm ss 0 initial) as [Hp He].
  simpl in Hp, He. lia.
Qed.



(** X11. Every request consent-withdrawn makes at item [i] carries the
    identifier of the [i]-th sample and asks either for objects or for
    collections; collections are asked for only after the search for the
    objects of the same sample has returned. *)
Theorem consent_requests_follow_sample
  (qm : nat -> Request -> outcome (list RodsItem)) (ss : list Sample)
  (i : nat) (q : Request) :
  In (Call i q) (events (consent_withdrawn qm ss)) ->
  (exists s, ss !! i = Some s /\ id_sample_lims s = Some (value q)) /\
  data_object q = negb (collection q) /\
  (collection q = true ->
   exists os, qm i (mkRequest (value q) true false) = Returned os).
Proof.
  intros Hin.
  destruct (run_consent_withdrawn qm ss) as (_ & _ & _ & Hev).
  rewrite Hev in Hin. apply in_app_or in Hin.
  destruct Hin as [Hin|[Hin|[]]]; [|discriminate Hin].
  apply for_enumerate_In in Hin. destruct Hin as (j & s & st' & Hj & Hin).
  apply cw_body_calls in Hin. destruct Hin as (-> & Hid & Hkind & Hafter).
  split; [exists s; auto|]. split; assumption.
Qed.

Lemma consent_requests_follow_sample_witness :
  exists s, [anon; s12] !! 1%nat = Some s /\ id_sample_lims s = Some "SAMPLE_12".
Proof.
  apply (consent_requests_follow_sample store [anon; s12] 1
           (mkRequest "SAMPLE_12" false true)).
  vm_compute. tauto.
Defined.

End ConsentTrace.

(** ** More about ont-updates: the trace as a whole *)

Module OntTrace.
Import Ont OntFacts Ont.Samples ConsentTrace.

Lemma ont_printed_app (a b : list Ev) :
  printed (a ++ b) = printed a ++ printed b.
Proof. apply flat_map_app. Qed.

Lemma ont_printed_prints (l : list RodsItem) :
  printed (map Print l : list Ev) = l.
Proof.
  induction l as [|x l IH]; [reflexivity|].
  cbn [map]. change (printed (Print x :: map Print l : list Ev))
    with (x :: printed (map Print l : list Ev)). rewrite IH. reflexivity.
Qed.

Lemma ont_how_many_prints (p : Ev -> bool) (l : list RodsItem) :
  (forall x, p (Print x) = false) -> how_many p (map Print l) = 0.
Proof.
  intros Hp. apply how_many_none. intros e He.
  apply in_map_iff in He. destruct He as (x & <- & _). apply Hp.
Qed.

Section Workflow.

Variable query_metadata : nat -> Component -> outcome (list RodsItem).
Variable barcode_collections :
  nat -> RodsItem -> string -> outcome (list RodsItem).

Abbreviation answer rt :=
  (Ont.answer query_metadata barcode_collections rt).
Abbreviation is_raising :=
  (Ont.is_raising query_metadata barcode_collections).

Lemma ont_answers_prints rt (l : list RodsItem) :
  flat_map (answer rt) (map Print l) = [].
Proof. induction l as [|x l IH]; [reflexivity|]. simpl. exact IH. Qed.

(** The loop over the collections matched, with the barcodes looked for. *)
Lemma ont_report_expanding i c tag : forall colls,
  tag_identifier c = Some tag ->
  printed (fst (report barcode_collections true i c colls))
  = flat_map (answer true) (fst (report barcode_collections true i c colls)) /\
  how_many is_raising (fst (report barcode_collections true i c colls))
  = match snd (report barcode_collections true i c colls) with
    | Some _ => 1
    | None => 0
    end.
Proof.
  intros colls Htag. induction colls as [|coll rest IH]; [split; reflexivity|].
  cbn [report]. rewrite Htag.
  destruct (barcode_collections i coll tag) as [bcolls|e] eqn:Hbc.
  - destruct (report barcode_collections true i c rest) as [ev r].
    cbn [fst snd] in *. destruct IH as [IHp IHe].
    cbn [how_many Ont.is_raising flat_map Ont.answer]. rewrite Hbc.
    change (printed (Call i (BarcodeCollections coll tag)
                       :: map Print bcolls ++ ev))
      with (printed (map Print bcolls ++ ev : list Ev)).
    rewrite ont_printed_app, ont_printed_prints, flat_map_app,
      ont_answers_prints, how_many_app, IHp, IHe.
    rewrite ont_how_many_prints by reflexivity. split; [reflexivity|lia].
  - cbn [fst snd how_many Ont.is_raising flat_map Ont.answer printed app].
    rewrite Hbc. split; reflexivity.
Qed.

(** What the loop prints and what it counts, with or without barcodes. *)
Lemma ont_report_trace rt i c colls :
  printed (fst (report barcode_collections rt i c colls))
  = (if expands rt c then [] else colls)
      ++ flat_map (answer rt) (fst (report barcode_collections rt i c colls)) /\
  how_many is_raising (fst (report barcode_collections rt i c colls))
  = match snd (report barcode_collections rt i c colls) with
    | Some _ => 1
    | None => 0
    end.
Proof.
  unfold expands.
  destruct rt; [destruct (tag_identifier c) as [tag|] eqn:Htag|].
  - rewrite bool_decide_eq_true_2 by eauto. cbn [andb app].
    apply (ont_report_expanding i c tag colls Htag).
  - rewrite (report_plain barcode_collections true i c colls)
      by (right; exact Htag).
    rewrite bool_decide_eq_false_2 by (intros [x Hx]; discriminate Hx).
    cbn [andb fst snd].
    rewrite ont_printed_prints, ont_answers_prints, app_nil_r.
    rewrite ont_how_many_prints by reflexivity. split; reflexivity.
  - rewrite (report_plain barcode_collections false i c colls)
      by (left; reflexivity).
    cbn [andb fst snd].
    rewrite ont_printed_prints, ont_answers_prints, app_nil_r.
    rewrite ont_how_many_prints by reflexivity. split; reflexivity.
Qed.

Variable report_tags : bool.

Abbreviation body :=
  (Ont.body query_metadata barcode_collections report_tags).
Abbreviation loop :=
  (Ont.loop query_metadata barcode_collections report_tags).

Lemma ont_body_trace i c st :
  printed (snd (body i c st))
  = flat_map (answer report_tags) (snd (body i c st)) /\
  num_errors (fst (body i c st))
  = num_errors st + how_many is_raising (snd (body i c st)).
Proof.
  unfold Ont.body.
  destruct (query_metadata i c) as [colls|e] eqn:Hq.
  - destruct (ont_report_trace report_tags i c colls) as [Hp He].
    destruct (report barcode_collections report_tags i c colls)
      as [ev [e|]]; cbn [fst snd num_errors] in *.
    + change (printed (Log Info "Finding collections" i c
                         :: Call i (FindCollections c)
                         :: ev ++ [Log Exception e i c]))
        with (printed (ev ++ [Log Exception e i c])).
      rewrite ont_printed_app, Hp.
      cbn [flat_map Ont.answer how_many Ont.is_raising app].
      rewrite Hq, flat_map_app, how_many_app, He.
      cbn [flat_map Ont.answer how_many Ont.is_raising app printed].
      rewrite !app_nil_r.
      split; [destruct (expands report_tags c); reflexivity|lia].
    + change (printed (Log Info "Finding collections" i c
                         :: Call i (FindCollections c) :: ev))
        with (printed ev).
      rewrite Hp.
      cbn [flat_map Ont.answer how_many Ont.is_raising app].
      rewrite Hq, He.
      split; [destruct (expands report_tags c); reflexivity|lia].
  - cbn [fst snd num_errors printed flat_map Ont.answer how_many
           Ont.is_raising app].
    rewrite Hq. split; [destruct (expands report_tags c); reflexivity|lia].
Qed.

Lemma ont_loop_trace cs : forall i st,
  printed (snd (loop i cs st))
  = flat_map (answer report_tags) (snd (loop i cs st)) /\
  num_errors (fst (loop i cs st))
  = num_errors st + how_many is_raising (snd (loop i cs st)).
Proof.
  induction cs as [|c cs IH]; intros i st.
  - simpl. split; [reflexivity|lia].
  - unfold Ont.loop in *. rewrite for_enumerate_cons. cbn [fst snd].
    destruct (ont_body_trace i c st) as [Hp He].
    destruct (IH (S i) (fst (body i c st))) as [Hp' He'].
    rewrite ont_printed_app, flat_map_app, how_many_app, Hp, Hp', He', He.
    split; [reflexivity|lia].
Qed.

End Workflow.

(** X12. ont-updates counts every component of the scan as processed,
    whatever happens to it, and the errors it reports are between zero and
    that count: a component is one error at most, however many of its
    collections there are. *)
Theorem ont_counts_every_component
  (qm : nat -> Component -> outcome (list RodsItem))
  (bc : nat -> RodsItem -> string -> outcome (list RodsItem))
  (report_tags : bool) (cs : list Component) :
  let run := ont_updates qm bc report_tags cs in
  processed run = Z.of_nat (length cs) /\ 0 <= errors run <= processed run.
Proof.
  intros run. subst run.
  destruct (run_ont_updates qm bc report_tags cs) as (-> & -> & _).
  destruct (ont_loop_totals qm bc report_tags cs 0 initial) as [Hp He].
  simpl in Hp, He. lia.
Qed.

(** X13. What ont-updates prints is, call after call, the collections the
    store matched when they are not to be expanded, and the barcode
    collections found below them when they are; what was printed for a
    component before one of its calls raised stays printed. *)
Theorem ont_prints_what_was_found
  (qm : nat -> Component -> outcome (list RodsItem))
  (bc : nat -> RodsItem -> string -> outcome (list RodsItem))
  (report_tags : bool) (cs : list Component) :
  printed (events (ont_updates qm bc report_tags cs))
  = flat_map (answer qm bc report_tags)
             (events (ont_updates qm bc report_tags cs)).
Proof.
  destruct (run_ont_updates qm bc report_tags cs) as (_ & _ & _ & ->).
  rewrite ont_printed_app, flat_map_app.
  destruct (ont_loop_trace qm bc report_tags cs 0 initial) as [-> _].
  reflexivity.
Qed.

(** X14. When the loop over the collections matched for a component ends
    with an exception, it is the look for the barcode collections of one
    collection that raised it: the collections before were dealt with to
    the end, the failing call is the last event, and the collections after
    it are neither expanded nor printed. *)
Theorem report_stops_at_first_failure
  (bc : nat -> RodsItem -> string -> outcome (list RodsItem))
  (report_tags : bool) (i : nat) (c : Component) (e : string)
  (colls : list RodsItem) (ev : list Ev) :
  report bc report_tags i c colls = (ev, Some e) ->
  exists pre coll tag post ev_pre,
    colls = pre ++ coll :: post /\
    report_tags = true /\ tag_identifier c = Some tag /\
    bc i coll tag = Raised e /\
    report bc report_tags i c pre = (ev_pre, None) /\
    ev = ev_pre ++ [Call i (BarcodeCollections coll tag)].
Proof.
  revert ev. induction colls as [|coll rest IH]; intros ev Hrep.
  - discriminate Hrep.
  - cbn [report] in Hrep.
    destruct report_tags; [destruct (tag_identifier c) as [tag|] eqn:Htag|].
    + destruct (bc i coll tag) as [bcolls|e'] eqn:Hbc.
      * destruct (report bc true i c rest) as [ev' r]
          eqn:Hrest.
        injection Hrep as <- ->.
        destruct (IH ev' eq_refl)
          as (pre & coll' & tag' & post & ev_pre & -> & _ & Ht & Hb & Hpre
              & ->).
        exists (coll :: pre), coll', tag', post,
          (Call i (BarcodeCollections coll tag) :: map Print bcolls ++ ev_pre).
        repeat split; auto.
        -- cbn [report]. rewrite Htag, Hbc, Hpre. reflexivity.
        -- rewrite <- app_comm_cons, <- app_assoc. reflexivity.
      * injection Hrep as <- <-.
        exists [], coll, tag, rest, []. repeat split; auto.
    + rewrite (report_plain bc true i c rest) in Hrep
        by (right; exact Htag).
      discriminate Hrep.
    + rewrite (report_plain bc false i c rest) in Hrep
        by (left; reflexivity).
      discriminate Hrep.
Qed.

Lemma report_stops_at_first_failure_witness :
  exists pre coll tag post ev_pre,
    [folder; folder2; folder3] = pre ++ coll :: post /\
    true = true /\ tag_identifier tagged = Some tag /\
    flaky_barcodes 0 coll tag = Raised "RodsError" /\
    report flaky_barcodes true 0 tagged pre = (ev_pre, None) /\
    [Call 0 (BarcodeCollections folder "NB01"); Print barcode01;
     Call 0 (BarcodeCollections folder2 "NB01")]
    = ev_pre ++ [Call 0 (BarcodeCollections coll tag)].
Proof.
  apply (report_stops_at_first_failure flaky_barcodes true 0 tagged
           "RodsError" [folder; folder2; folder3]).
  reflexivity.
Defined.

(** X15. The errors ont-updates reports are the calls that raised, searches
    and looks for barcode collections alike. *)
Theorem ont_errors_are_raising_calls
  (qm : nat -> Component -> outcome (list RodsItem))
  (bc : nat -> RodsItem -> string -> outcome (list RodsItem))
  (report_tags : bool) (cs : list Component) :
  errors (ont_updates qm bc report_tags cs)
  = how_many (is_raising qm bc) (events (ont_updates qm bc report_tags cs)).
Proof.
  destruct (run_ont_updates qm bc report_tags cs) as (_ & -> & _ & ->).
  destruct (ont_loop_trace qm bc report_tags cs 0 initial) as [_ ->].
  rewrite how_many_app. simpl. lia.
Qed.

End OntTrace.
